(** * cm_hw3: TOML to teaching-configuration-language converter

    A shallow embedding of [main.py] and the properties of its
    comment-extraction pass, postfix evaluator and document processor.

    Conventions of the embedding.
    - A Python [str] is a Rocq [string]; a character is its code point,
      so the text covered is the one over U+0000..U+00FF.  The character
      classes below ([isspace], [isdigit], line boundaries) are Python's,
      restricted to that range.
    - A Python [int] is a [Z]; a [float] is an IEEE binary64 value of
      [SpecFloat]; [bool] is kept apart from [int] because [str] prints it
      differently, and is read as 0 or 1 by the arithmetic.
    - [constants], the dictionary that [process_data] mutates and
      [evaluate_infix] reads, is a [gmap string number] threaded through a
      state-and-exception monad: a raised exception keeps the state reached,
      as a mutated Python dictionary does.
    - [data.items()] is an association list in insertion order.
    - CPython's limit on the number of digits that [int] and [str] convert
      is not part of the embedding. *)

From Stdlib Require Import ZArith String Ascii List Lia Bool.
From Stdlib Require Import DecimalString DecimalPos SpecFloat.
From stdpp Require Import gmap strings list.

Open Scope string_scope.
Open Scope list_scope.

(** ** Python string primitives *)

Module PyStr.

Definition code (c : ascii) : N := N_of_ascii c.

(** [str.isspace] on one character. *)
Definition isspace (c : ascii) : bool :=
  let n := code c in
  ((9 <=? n) && (n <=? 13) || (28 <=? n) && (n <=? 32)
   || (n =? 133) || (n =? 160))%N.

(** Characters with [str.isdecimal]: the ten ASCII digits. *)
Definition isdecimal (c : ascii) : bool :=
  let n := code c in ((48 <=? n) && (n <=? 57))%N.

(** Characters with [str.isdigit]: the decimal ones and the superscripts
    U+00B2, U+00B3, U+00B9. *)
Definition isdigit_char (c : ascii) : bool :=
  let n := code c in
  (isdecimal c || (n =? 178) || (n =? 179) || (n =? 185))%N.

(** The line boundaries of [str.splitlines], CR LF apart. *)
Definition is_linebreak (c : ascii) : bool :=
  let n := code c in
  ((10 <=? n) && (n <=? 13) || (28 <=? n) && (n <=? 30) || (n =? 133))%N.

Fixpoint all_chars (p : ascii -> bool) (s : string) : bool :=
  match s with
  | EmptyString => true
  | String c s' => p c && all_chars p s'
  end.

Definition is_empty (s : string) : bool :=
  match s with EmptyString => true | _ => false end.

(** [s.isdigit()]: non-empty and made of digits. *)
Definition isdigit (s : string) : bool :=
  negb (is_empty s) && all_chars isdigit_char s.

(** [s.startswith(p)]. *)
Fixpoint startswith (p s : string) : bool :=
  match p, s with
  | EmptyString, _ => true
  | String a p', String b s' => Ascii.eqb a b && startswith p' s'
  | String _ _, EmptyString => false
  end.

(** [s.endswith(p)]. *)
Definition endswith (p s : string) : bool :=
  startswith (String.rev p) (String.rev s).

(** [sub in s]. *)
Fixpoint contains (sub s : string) : bool :=
  startswith sub s ||
  match s with
  | EmptyString => false
  | String _ s' => contains sub s'
  end.

(** [s[1:-1]]. *)
Definition slice_1_m1 (s : string) : string :=
  substring 1 (String.length s - 2) s.

Fixpoint lstrip (s : string) : string :=
  match s with
  | EmptyString => EmptyString
  | String c s' => if isspace c then lstrip s' else s
  end.

Fixpoint rstrip (s : string) : string :=
  match s with
  | EmptyString => EmptyString
  | String c s' =>
      let r := rstrip s' in
      if is_empty r && isspace c then EmptyString else String c r
  end.

(** [s.strip()]. *)
Definition strip (s : string) : string := rstrip (lstrip s).

(** [sep.join(parts)]. *)
Fixpoint join (sep : string) (parts : list string) : string :=
  match parts with
  | [] => EmptyString
  | [p] => p
  | p :: ps => p +:+ sep +:+ join sep ps
  end.

(** [s.split()]: the maximal runs of non-whitespace characters. *)
Fixpoint split (s : string) : list string :=
  match s with
  | EmptyString => []
  | String c s' =>
      if isspace c then split s'
      else
        match s' with
        | EmptyString => [String c EmptyString]
        | String c' _ =>
            if isspace c' then String c EmptyString :: split s'
            else
              match split s' with
              | t :: ts => String c t :: ts
              | [] => [String c EmptyString]
              end
        end
  end.

(** [s.splitlines()]: the lines without their terminators; CR LF is one
    terminator, and a terminator at the very end opens no further line. *)
Fixpoint splitlines (s : string) : list string :=
  match s with
  | EmptyString => []
  | String c s' =>
      if is_linebreak c then
        EmptyString ::
        match s' with
        | String c' s'' =>
            if Ascii.eqb c "013" && Ascii.eqb c' "010"
            then splitlines s'' else splitlines s'
        | EmptyString => []
        end
      else
        match splitlines s' with
        | l :: ls => String c l :: ls
        | [] => [String c EmptyString]
        end
  end.

End PyStr.

(** ** Python numbers *)

Module PyNum.

Local Open Scope Z_scope.

(** The parameters of IEEE binary64. *)
Definition prec : Z := 53.
Definition emax : Z := 1024.

(** A Python number as this program meets it. *)
Inductive number :=
| NInt (z : Z)
| NBool (b : bool)
| NFloat (f : spec_float).

(** The exceptions of the arithmetic. *)
Inductive arith_error := ZeroDivisionError | OverflowError.

(** [str(n)] for an [int]. *)
Definition int_str (z : Z) : string := NilZero.string_of_int (Z.to_int z).

Definition digits10 (z : Z) : Z := Z.of_nat (String.length (int_str z)).

(** The [L] with [10^L <= n/d < 10^(L+1)], for positive [n] and [d]. *)
Definition floor_log10 (n d : Z) : Z :=
  let g := digits10 n - digits10 d in
  if 0 <=? g
  then (if d * 10 ^ g <=? n then g else g - 1)
  else (if d <=? n * 10 ^ (- g) then g else g - 1).

(** [repr] of a finite non-zero float prints the shortest decimal
    [d * 10^k] that reads back as the same float, and of those the one
    nearest to it.  The float is [m * 2^e]; the decimals that read back as
    it are those between the midpoints to its two neighbours, the
    midpoints included when [m] is even.  Everything is counted in units
    of [2^(e-2)], where the float is [4m], the upper midpoint [4m+2] and
    the lower one [4m-2], or [4m-1] just above a power of two. *)
Fixpoint shortest_search (fuel : nat) (n : Z) (lo mid hi a b l : Z)
         (closed : bool) : Z * Z :=
  let k := l - n + 1 in
  let p := 10 ^ Z.max k 0 in
  let q := 10 ^ Z.max (- k) 0 in
  let unit t := t * a * q in
  let cand d := d * p * b in
  let inside d :=
    if closed
    then (unit lo <=? cand d) && (cand d <=? unit hi)
    else (unit lo <? cand d) && (cand d <? unit hi) in
  let d0 := unit mid / (p * b) in
  let d1 := d0 + 1 in
  let below := unit mid - cand d0 in
  let above := cand d1 - unit mid in
  let pick :=
    match inside d0, inside d1 with
    | true, true =>
        if below <? above then Some d0
        else if above <? below then Some d1
        else Some (if Z.even d0 then d0 else d1)
    | true, false => Some d0
    | false, true => Some d1
    | false, false => None
    end in
  match pick, fuel with
  | Some d, _ => (d, k)
  | None, O => (d0, k)
  | None, S fuel' => shortest_search fuel' (n + 1) lo mid hi a b l closed
  end.

Definition shortest_decimal (m : positive) (e : Z) : Z * Z :=
  let m := Z.pos m in
  let lo :=
    if (m =? 2 ^ (prec - 1)) && (3 - emax - prec <? e)
    then 4 * m - 1 else 4 * m - 2 in
  let a := 2 ^ Z.max (e - 2) 0 in
  let b := 2 ^ Z.max (2 - e) 0 in
  shortest_search 16 1 lo (4 * m) (4 * m + 2) a b
                  (floor_log10 (4 * m * a) b) (Z.even m).

Fixpoint zeros (n : nat) : string :=
  match n with O => EmptyString | S n' => String "0" (zeros n') end.

Fixpoint strip_zeros (s : string) : string :=
  match s with
  | EmptyString => EmptyString
  | String c s' =>
      match strip_zeros s' with
      | EmptyString => if Ascii.eqb c "0" then EmptyString else String c EmptyString
      | r => String c r
      end
  end.

(** The layout of [repr]: [digits] are the significant digits and the
    value is [0.digits * 10^decpt]; exponent notation is used below
    [1e-4] and from [1e16] on. *)
Definition float_layout (digits : string) (decpt : Z) : string :=
  let n := Z.of_nat (String.length digits) in
  if (-4 <? decpt) && (decpt <=? 16) then
    if decpt <=? 0 then
      "0." +:+ zeros (Z.to_nat (- decpt)) +:+ digits
    else if decpt <? n then
      substring 0 (Z.to_nat decpt) digits +:+ "." +:+
      substring (Z.to_nat decpt) (Z.to_nat (n - decpt)) digits
    else
      digits +:+ zeros (Z.to_nat (decpt - n)) +:+ ".0"
  else
    let x := decpt - 1 in
    let xs := int_str (Z.abs x) in
    substring 0 1 digits +:+
    (if 1 <? n then "." +:+ substring 1 (Z.to_nat (n - 1)) digits
     else EmptyString) +:+
    "e" +:+ (if x <? 0 then "-" else "+") +:+
    (if Z.abs x <? 10 then "0" +:+ xs else xs).

Definition sign_str (s : bool) : string :=
  if s then "-" else EmptyString.

(** [repr(x)], which is also [str(x)], for a [float]. *)
Definition float_str (f : spec_float) : string :=
  match f with
  | S754_zero s => sign_str s +:+ "0.0"
  | S754_infinity s => sign_str s +:+ "inf"
  | S754_nan => "nan"
  | S754_finite s m e =>
      let '(d, k) := shortest_decimal m e in
      let ds := int_str d in
      sign_str s +:+
      float_layout (strip_zeros ds) (Z.of_nat (String.length ds) + k)
  end.

(** [str(x)] for a number. *)
Definition num_str (x : number) : string :=
  match x with
  | NInt z => int_str z
  | NBool true => "True"
  | NBool false => "False"
  | NFloat f => float_str f
  end.

(** [float(n)] for an [int]: the nearest float, or [OverflowError]. *)
Definition int_to_float (z : Z) : arith_error + spec_float :=
  match binary_normalize prec emax z 0 false with
  | S754_infinity _ => inl OverflowError
  | f => inr f
  end.

(** [a / b] for two [int]: the nearest float to the quotient. *)
Definition int_true_divide (a b : Z) : arith_error + spec_float :=
  match b with
  | 0 => inl ZeroDivisionError
  | _ =>
      let neg := xorb (a <? 0) (b <? 0) in
      match a with
      | 0 => inr (S754_zero neg)
      | _ =>
          match SFdiv prec emax
                  (S754_finite (a <? 0) (Z.to_pos (Z.abs a)) 0)
                  (S754_finite (b <? 0) (Z.to_pos (Z.abs b)) 0) with
          | S754_infinity _ => inl OverflowError
          | f => inr f
          end
      end
  end.

Definition is_zero (f : spec_float) : bool :=
  match f with S754_zero _ => true | _ => false end.

Definition float_divide (f g : spec_float) : arith_error + spec_float :=
  if is_zero g then inl ZeroDivisionError else inr (SFdiv prec emax f g).

(** Python compares an [int] with a [float] by their exact values. *)
Definition int_lt_float (a : Z) (g : spec_float) : bool :=
  match g with
  | S754_zero _ => a <? 0
  | S754_infinity s => negb s
  | S754_nan => false
  | S754_finite s m e =>
      let v := cond_Zopp s (Z.pos m) in
      if 0 <=? e then a <? v * 2 ^ e else a * 2 ^ (- e) <? v
  end.

Definition float_lt_int (f : spec_float) (b : Z) : bool :=
  match f with
  | S754_zero _ => 0 <? b
  | S754_infinity s => s
  | S754_nan => false
  | S754_finite s m e =>
      let v := cond_Zopp s (Z.pos m) in
      if 0 <=? e then v * 2 ^ e <? b else v <? b * 2 ^ (- e)
  end.

(** An [int] or a [bool] counts as an integer, a [float] as itself. *)
Definition coerce (x : number) : Z + spec_float :=
  match x with
  | NInt z => inl z
  | NBool b => inl (if b then 1 else 0)
  | NFloat f => inr f
  end.

Definition lift_float (r : arith_error + spec_float) : arith_error + number :=
  match r with inl e => inl e | inr f => inr (NFloat f) end.

(** A binary operator: on two integers [iop], otherwise [fop] after the
    integer operand, if any, is converted to [float]. *)
Definition binop (iop : Z -> Z -> arith_error + number)
           (fop : spec_float -> spec_float -> arith_error + spec_float)
           (x y : number) : arith_error + number :=
  match coerce x, coerce y with
  | inl a, inl b => iop a b
  | inl a, inr g =>
      match int_to_float a with
      | inl e => inl e
      | inr f => lift_float (fop f g)
      end
  | inr f, inl b =>
      match int_to_float b with
      | inl e => inl e
      | inr g => lift_float (fop f g)
      end
  | inr f, inr g => lift_float (fop f g)
  end.

Definition add : number -> number -> arith_error + number :=
  binop (fun a b => inr (NInt (a + b))) (fun f g => inr (SFadd prec emax f g)).
Definition sub : number -> number -> arith_error + number :=
  binop (fun a b => inr (NInt (a - b))) (fun f g => inr (SFsub prec emax f g)).
Definition mul : number -> number -> arith_error + number :=
  binop (fun a b => inr (NInt (a * b))) (fun f g => inr (SFmul prec emax f g)).
Definition truediv : number -> number -> arith_error + number :=
  binop (fun a b => lift_float (int_true_divide a b)) float_divide.

(** [x < y]. *)
Definition lt (x y : number) : bool :=
  match coerce x, coerce y with
  | inl a, inl b => a <? b
  | inl a, inr g => int_lt_float a g
  | inr f, inl b => float_lt_int f b
  | inr f, inr g => SFltb f g
  end.

End PyNum.

(** ** Python values *)

Export PyNum.

(** A value that [toml.loads] can put in the dictionary: a number, a
    string, an array, a table, or another object (a date or a time), of
    which only the texts that [str] and [repr] give are kept. *)
#[local] Unset Elimination Schemes.
Inductive value :=
| VNum (n : number)
| VStr (s : string)
| VList (l : list value)
| VDict (d : list (string * value))
| VObj (str_text repr_text : string).
#[local] Set Elimination Schemes.

Module PyRepr.

Definition hex_digit (n : N) : ascii :=
  if (n <? 10)%N then ascii_of_N (48 + n) else ascii_of_N (87 + n).

(** [str.isprintable] on one character. *)
Definition isprintable (c : ascii) : bool :=
  let n := PyStr.code c in
  negb ((n <? 32) || (127 <=? n) && (n <=? 160) || (n =? 173))%N.

Definition one (c : ascii) : string := String c EmptyString.

Definition repr_char (quote c : ascii) : string :=
  if Ascii.eqb c "092" then String "092" (one "092")
  else if Ascii.eqb c quote then String "092" (one quote)
  else if Ascii.eqb c "009" then String "092" "t"
  else if Ascii.eqb c "010" then String "092" "n"
  else if Ascii.eqb c "013" then String "092" "r"
  else if isprintable c then one c
  else
    let n := PyStr.code c in
    String "092" (String "x" (String (hex_digit (n / 16)) (one (hex_digit (n mod 16))))).

Fixpoint repr_chars (quote : ascii) (s : string) : string :=
  match s with
  | EmptyString => EmptyString
  | String c s' => repr_char quote c +:+ repr_chars quote s'
  end.

(** [repr(s)] for a [str]: single quotes, unless the text holds a single
    quote and no double one. *)
Definition repr_str (s : string) : string :=
  let quote : ascii :=
    if PyStr.contains (one "039") s && negb (PyStr.contains (one "034") s)
    then "034"%char else "039"%char in
  one quote +:+ repr_chars quote s +:+ one quote.

(** [repr(v)]. *)
Fixpoint py_repr (v : value) : string :=
  match v with
  | VNum n => num_str n
  | VStr s => repr_str s
  | VList l => "[" +:+ PyStr.join ", " (List.map py_repr l) +:+ "]"
  | VDict d =>
      "{" +:+
      PyStr.join ", "
        (List.map (fun kv => repr_str (fst kv) +:+ ": " +:+ py_repr (snd kv)) d)
      +:+ "}"
  | VObj _ r => r
  end.

(** [str(v)]. *)
Definition py_str (v : value) : string :=
  match v with
  | VStr s => s
  | VObj s _ => s
  | _ => py_repr v
  end.

End PyRepr.

(** ** Regular expressions, as far as [NAME_REGEX] uses them *)

Module Re.

Inductive item :=
| Caret
| Dollar
| Class (ranges : list (ascii * ascii))
| ClassStar (ranges : list (ascii * ascii)).

Definition in_class (ranges : list (ascii * ascii)) (c : ascii) : bool :=
  existsb (fun r => (PyStr.code (fst r) <=? PyStr.code c)%N
                    && (PyStr.code c <=? PyStr.code (snd r))%N) ranges.

(** Without [re.MULTILINE], [$] matches at the end of the string and
    just before a newline that ends the string. *)
Definition at_end (s : string) : bool :=
  match s with
  | EmptyString => true
  | String c EmptyString => Ascii.eqb c "010"
  | _ => false
  end.

(** Does the pattern match a prefix of [s]?  [at_start] tells whether
    [s] is the whole subject. *)
Fixpoint match_here (pat : list item) (at_start : bool) (s : string) : bool :=
  match pat with
  | [] => true
  | Caret :: pat' => at_start && match_here pat' at_start s
  | Dollar :: pat' => at_end s && match_here pat' at_start s
  | Class r :: pat' =>
      match s with
      | String c s' => in_class r c && match_here pat' false s'
      | EmptyString => false
      end
  | ClassStar r :: pat' =>
      (fix star (at_start : bool) (s : string) : bool :=
         match s with
         | String c s' => in_class r c && star false s'
         | EmptyString => false
         end || match_here pat' at_start s) at_start s
  end.

(** [re.match(pat, s)] finds a match. *)
Definition re_match (pat : list item) (s : string) : bool :=
  match_here pat true s.

End Re.

(** ** The comment-extraction pass *)

(** [enumerate(lines)], counted from [n]. *)
Fixpoint enumerate_from {A : Type} (n : nat) (l : list A) : list (nat * A) :=
  match l with
  | [] => []
  | x :: xs => (n, x) :: enumerate_from (S n) xs
  end.

(** The local variables of [remove_comments] that the loop updates. *)
Record scan_state := ScanState {
  cleaned_lines : list string;
  comments : list (nat * string);
  inside_comment : bool;
  comment_buffer : list string;
  comment_start_line : option nat
}.

Definition scan_init : scan_state :=
  ScanState [] [] false [] None.

(** One iteration of the [for] loop of [remove_comments].
    [comment_start_line] is [None] only until the first opening line; the
    branch that records a comment needs [inside_comment], which an opening
    line alone sets, so the [default] there is never used. *)
Definition scan_line (st : scan_state) (item : nat * string) : scan_state :=
  let '(line_number, line) := item in
  if PyStr.contains "{{!" line then
    ScanState (cleaned_lines st) (comments st) true
              (comment_buffer st ++ [line]) (Some line_number)
  else if PyStr.contains "}}" line && inside_comment st then
    ScanState (cleaned_lines st)
              (comments st ++
                 [(default 0 (comment_start_line st),
                   PyStr.strip (PyStr.join " " (comment_buffer st ++ [line])))])
              false [] (comment_start_line st)
  else if inside_comment st then
    ScanState (cleaned_lines st) (comments st) true
              (comment_buffer st ++ [line]) (comment_start_line st)
  else
    ScanState (cleaned_lines st ++ [line]) (comments st) false
              (comment_buffer st) (comment_start_line st).

Definition scan_lines (lines : list string) : scan_state :=
  fold_left scan_line (enumerate_from 0 lines) scan_init.

Definition remove_comments (data : string) : string * list (nat * string) :=
  let st := scan_lines (PyStr.splitlines data) in
  (PyStr.join (String "010" EmptyString) (cleaned_lines st), comments st).

(** ** Exceptions and the state of a run *)

(** The exceptions the program can leave with.  The four [ValueError]s the
    program raises itself differ in their message, and the one [int] raises
    on a digit that is not decimal is a [ValueError] too; an operator with
    an empty stack leaves with [IndexError], the arithmetic with
    [ZeroDivisionError] or [OverflowError], a missing key with [KeyError]. *)
Inductive exn :=
| InvalidName (name : string)
| UnknownToken (token : string)
| InvalidLiteral (token : string)
| ExpressionError (key : string) (cause : exn)
| UnsupportedValue (key : string)
| IndexError
| KeyError (key : string)
| ArithError (e : arith_error).

(** [isinstance(e, ValueError)]. *)
Definition is_ValueError (e : exn) : bool :=
  match e with
  | InvalidName _ | UnknownToken _ | InvalidLiteral _
  | ExpressionError _ _ | UnsupportedValue _ => true
  | IndexError | KeyError _ | ArithError _ => false
  end.

Inductive outcome (A : Type) :=
| Return (a : A)
| Raise (e : exn).
Arguments Return {A} a.
Arguments Raise {A} e.

(** A computation over the dictionary [constants]. *)
Definition M (A : Type) : Type :=
  gmap string number -> outcome A * gmap string number.

Definition ret {A} (a : A) : M A := fun c => (Return a, c).

Definition raise {A} (e : exn) : M A := fun c => (Raise e, c).

Definition bind {A B} (m : M A) (k : A -> M B) : M B :=
  fun c =>
    match m c with
    | (Return a, c') => k a c'
    | (Raise e, c') => (Raise e, c')
    end.

Notation "'do' x <- m ; k" := (bind m (fun x => k))
  (at level 10, x name, m at level 100, k at level 200).
Notation "'do_' m ; k" := (bind m (fun _ => k))
  (at level 10, m at level 100, k at level 200).

(** [token in constants]. *)
Definition dict_contains (key : string) : M bool :=
  fun c => (Return (bool_decide (is_Some (c !! key))), c).

(** [constants[token]]. *)
Definition dict_get (key : string) : M number :=
  fun c =>
    match c !! key with
    | Some v => (Return v, c)
    | None => (Raise (KeyError key), c)
    end.

(** [constants[key] = v]. *)
Definition dict_set (key : string) (v : number) : M unit :=
  fun c => (Return tt, <[key := v]> c).

(** [try: m  except ValueError as e: raise handler(e)]. *)
Definition except_ValueError {A} (m : M A) (handler : exn -> exn) : M A :=
  fun c =>
    match m c with
    | (Raise e, c') =>
        if is_ValueError e then (Raise (handler e), c') else (Raise e, c')
    | r => r
    end.

Definition lift_arith {A} (r : arith_error + A) : M A :=
  match r with
  | inl e => raise (ArithError e)
  | inr a => ret a
  end.

(** ** The program *)

Definition OPERATORS
  : list (string * (number -> number -> arith_error + number)) :=
  [ ("+", PyNum.add);
    ("-", PyNum.sub);
    ("*", PyNum.mul);
    ("/", PyNum.truediv);
    ("min", fun x y => inr (if PyNum.lt x y then x else y)) ].

(** [OPERATORS[token]], when [token in OPERATORS]. *)
Fixpoint assoc {A} (key : string) (d : list (string * A)) : option A :=
  match d with
  | [] => None
  | (k, v) :: d' => if String.eqb key k then Some v else assoc key d'
  end.

Definition NAME_REGEX : list Re.item :=
  [ Re.Caret;
    Re.Class [("_", "_"); ("A", "Z")]%char;
    Re.ClassStar [("_", "_"); ("a", "z"); ("A", "Z"); ("0", "9")]%char;
    Re.Dollar ].

Definition validate_name (name : string) : M unit :=
  if negb (Re.re_match NAME_REGEX name)
  then raise (InvalidName name)
  else ret tt.

Definition format_list (array : list value) : string :=
  "(list " +:+ PyStr.join " " (List.map PyRepr.py_str array) +:+ ")".

Definition format_table (value : list (string * value)) : string :=
  let formatted_items :=
    List.map (fun kv => fst kv +:+ " = " +:+ PyRepr.py_str (snd kv)) value in
  "table([" +:+ PyStr.join ", " formatted_items +:+ "])".

(** The number a string of decimal digits denotes. *)
Fixpoint decimal_value (acc : Z) (s : string) : Z :=
  match s with
  | EmptyString => acc
  | String c s' => decimal_value (10 * acc + Z.of_N (PyStr.code c - 48)) s'
  end.

(** [int(token)] for a token with [isdigit]: a digit that is not decimal
    makes [int] raise [ValueError]. *)
Definition py_int (token : string) : M number :=
  if PyStr.all_chars PyStr.isdecimal token
  then ret (NInt (decimal_value 0 token))
  else raise (InvalidLiteral token).

(** [stack.pop()] on a [deque]; the top of the stack is the head. *)
Definition pop (stack : list number) : M (number * list number) :=
  match stack with
  | [] => raise IndexError
  | x :: stack' => ret (x, stack')
  end.

(** The [for] loop of [evaluate_infix]. *)
Fixpoint eval_tokens (tokens : list string) (stack : list number)
  : M (list number) :=
  match tokens with
  | [] => ret stack
  | token :: rest =>
      if PyStr.isdigit token then
        do n <- py_int token;
        eval_tokens rest (n :: stack)
      else
        do known <- dict_contains token;
        if known then
          do v <- dict_get token;
          eval_tokens rest (v :: stack)
        else
          match assoc token OPERATORS with
          | Some op =>
              do bs <- pop stack;
              do as_ <- pop (snd bs);
              do result <- lift_arith (op (fst as_) (fst bs));
              eval_tokens rest (result :: snd as_)
          | None => raise (UnknownToken token)
          end
  end.

Definition evaluate_infix (expression : string) : M number :=
  do stack <- eval_tokens (PyStr.split expression) [];
  do r <- pop stack;
  ret (fst r).

(** [{line_number: comment for line_number, comment in comments}]: of two
    comments with one line number the later stays. *)
Definition comment_dict_of (comments : list (nat * string)) : gmap nat string :=
  fold_left (fun d nc => <[fst nc := snd nc]> d) comments ∅.

Definition is_expression (value : string) : bool :=
  PyStr.startswith "|" value && PyStr.endswith "|" value.

(** The branches on the kind of [value] in [process_data]: the output line
    of the entry. *)
Definition render_entry (key : string) (value : value) : M string :=
  match value with
  | VNum n =>
      do_ dict_set key n;
      ret (num_str n +:+ " -> " +:+ key)
  | VList l => ret (format_list l +:+ " -> " +:+ key)
  | VDict d => ret (format_table d +:+ " -> " +:+ key)
  | VStr s =>
      if is_expression s then
        let expression := PyStr.strip (PyStr.slice_1_m1 s) in
        except_ValueError
          (do result <- evaluate_infix expression;
           do_ dict_set key result;
           ret (num_str result +:+ " -> " +:+ expression))
          (ExpressionError key)
      else raise (UnsupportedValue key)
  | VObj _ _ => raise (UnsupportedValue key)
  end.

(** [output_lines[-1] += ...] when a comment carries the index of the line
    just added. *)
Definition attach_comment (comment_dict : gmap nat string)
           (output_lines : list string) : list string :=
  let current_index := (length output_lines - 1)%nat in
  match comment_dict !! current_index with
  | Some c =>
      alter (fun l => l +:+ "   {! " +:+ c +:+ " !}") current_index output_lines
  | None => output_lines
  end.

(** One iteration of the [for] loop of [process_data]. *)
Definition process_entry (comment_dict : gmap nat string)
           (output_lines : list string) (entry : string * value)
  : M (list string) :=
  let '(key, value) := entry in
  do_ validate_name key;
  do output_line <- render_entry key value;
  ret (attach_comment comment_dict (output_lines ++ [output_line])).

Fixpoint process_loop (comment_dict : gmap nat string)
         (data : list (string * value)) (output_lines : list string)
  : M (list string) :=
  match data with
  | [] => ret output_lines
  | entry :: rest =>
      do output_lines' <- process_entry comment_dict output_lines entry;
      process_loop comment_dict rest output_lines'
  end.

Definition process_data (data : list (string * value))
           (comments : list (nat * string)) : M (list string) :=
  process_loop (comment_dict_of comments) data [].

(** * The notions the statements use *)

(** ** Computations that only read [constants] *)

(** [m] leaves the dictionary as it found it, whatever its outcome. *)
Definition read_only {A} (m : M A) : Prop :=
  forall c, snd (m c) = c.

(** ** Names *)

(** The names of the specification: an underscore or an upper-case letter,
    then underscores, letters and digits. *)
Definition is_upper (c : ascii) : bool :=
  ((65 <=? PyStr.code c) && (PyStr.code c <=? 90))%N.
Definition is_lower (c : ascii) : bool :=
  ((97 <=? PyStr.code c) && (PyStr.code c <=? 122))%N.
Definition is_name_start (c : ascii) : bool :=
  Ascii.eqb c "_" || is_upper c.
Definition is_name_char (c : ascii) : bool :=
  Ascii.eqb c "_" || is_lower c || is_upper c || PyStr.isdecimal c.

Definition name_ok (name : string) : bool :=
  match name with
  | String c rest => is_name_start c && PyStr.all_chars is_name_char rest
  | EmptyString => false
  end.

(** [chop_newline s] is the text before the newline that ends [s]. *)
Fixpoint chop_newline (s : string) : option string :=
  match s with
  | EmptyString => None
  | String c EmptyString =>
      if Ascii.eqb c "010" then Some EmptyString else None
  | String c s' => option_map (String c) (chop_newline s')
  end.

(** ** The dictionary over a run *)

(** The entries that bind their name: numbers and expressions. *)
Definition binds (value : value) : bool :=
  match value with
  | VNum _ => true
  | VStr s => is_expression s
  | VList _ | VDict _ | VObj _ _ => false
  end.

(** The dictionary once the first [n] entries of [data] are processed. *)
Definition constants_after (data : list (string * value))
           (comments : list (nat * string)) (c0 : gmap string number)
           (n : nat) : gmap string number :=
  snd (process_data (take n data) comments c0).

(** ** Comment blocks *)

Definition opens (line : string) : bool := PyStr.contains "{{!" line.
Definition closes (line : string) : bool := PyStr.contains "}}" line.

(** The text that follows the first occurrence of [sub] in [s]. *)
Fixpoint text_after (sub s : string) : option string :=
  if PyStr.startswith sub s
  then Some (substring (String.length sub)
                       (String.length s - String.length sub) s)
  else
    match s with
    | EmptyString => None
    | String _ s' => text_after sub s'
    end.

(** The closing marker follows the opening one on the line. *)
Definition closes_after_open (line : string) : bool :=
  match text_after "{{!" line with
  | Some t => closes t
  | None => false
  end.

(** The comment a block of lines is recorded as. *)
Definition block_text (block : list string) : string :=
  PyStr.strip (PyStr.join " " block).

(** [layout same_line n lines kept found]: the lines, numbered from [n],
    are plain lines, which hold no marker, and comment blocks, whose
    markers are balanced and not nested; [kept] are the plain lines and
    [found] has, for each block, the number of its opening line and its
    text.  A block is an opening line, lines without markers, and a
    closing line; with [same_line], it may also be one line on which the
    closing marker follows the opening one. *)
Inductive layout (same_line : bool)
  : nat -> list string -> list string -> list (nat * string) -> Prop :=
| layout_end n : layout same_line n [] [] []
| layout_plain n line rest kept found :
    opens line = false ->
    closes line = false ->
    layout same_line (S n) rest kept found ->
    layout same_line n (line :: rest) (line :: kept) found
| layout_block n first body last rest kept found :
    opens first = true ->
    closes first = false ->
    Forall (fun l => opens l = false /\ closes l = false) body ->
    opens last = false ->
    closes last = true ->
    layout same_line (n + length body + 2) rest kept found ->
    layout same_line n (first :: body ++ last :: rest) kept
           ((n, block_text (first :: body ++ [last])) :: found)
| layout_inline n line rest kept found :
    same_line = true ->
    closes_after_open line = true ->
    layout same_line (S n) rest kept found ->
    layout same_line n (line :: rest) kept ((n, block_text [line]) :: found).

(** ** The inputs of [main_test.py] *)

Definition test_document : string :=
  PyStr.join (String "010" EmptyString)
    ["Key1 = 10"; "{{! "; "This is a comment "; "}}"; "Key2 = 20"].

Definition test_constants : gmap string number :=
  <["a" := NInt 10]> (<["b" := NInt 5]> ∅).

Definition test_data : list (string * value) :=
  [ ("Key1", VNum (NInt 10));
    ("Key2", VNum (NInt 20));
    ("Key3", VList [VNum (NInt 1); VNum (NInt 2); VNum (NInt 3)]);
    ("Key4", VStr "|Key1 Key2 +|") ].

Definition final_constants : gmap string number :=
  <["Key4" := NInt 30]> (<["Key2" := NInt 20]> (<["Key1" := NInt 10]> ∅)).

(** ** Tokens and stacks *)

(** A text without whitespace. *)
Definition no_space (s : string) : bool :=
  PyStr.all_chars (fun c => negb (PyStr.isspace c)) s.

(** A number that is no [float]: an [int] or a [bool]. *)
Definition integral (x : number) : bool :=
  match x with
  | NInt _ | NBool _ => true
  | NFloat _ => false
  end.

(** ** Comments on output lines *)

(** The line with index [i], with the comment recorded under [i], if there
    is one, appended. *)
Definition annotate (comment_dict : gmap nat string) (i : nat) (line : string)
  : string :=
  match comment_dict !! i with
  | Some c => line +:+ "   {! " +:+ c +:+ " !}"
  | None => line
  end.

(** * Properties *)

(** ** The tests of [main_test.py] *)

Example test_remove_comments :
  remove_comments test_document =
  ("Key1 = 10" +:+ String "010" "Key2 = 20",
   [(1, "{{!  This is a comment  }}")]).
Proof. reflexivity. Qed.

Example test_validate_name :
  fst (validate_name "_VALID_NAME" ∅) = Return tt
  /\ fst (validate_name "1Invalid" ∅) = Raise (InvalidName "1Invalid")
  /\ fst (validate_name "Invalid-Name" ∅) = Raise (InvalidName "Invalid-Name").
Proof. repeat split. Qed.

Example test_format_list :
  format_list [VNum (NInt 1); VNum (NInt 2); VNum (NInt 3)] = "(list 1 2 3)".
Proof. reflexivity. Qed.

(** [test_format_table] of [main_test.py] expects line breaks inside the
    brackets; [format_table] writes none. *)
Example format_table_sample :
  format_table [("Key1", VNum (NInt 10)); ("Key2", VNum (NInt 20))]
  = "table([Key1 = 10, Key2 = 20])".
Proof. reflexivity. Qed.

Example test_evaluate_infix :
  fst (evaluate_infix "a b +" test_constants) = Return (NInt 15)
  /\ fst (evaluate_infix "a b *" test_constants) = Return (NInt 50)
  /\ fst (evaluate_infix "a b -" test_constants) = Return (NInt 5)
  /\ fst (evaluate_infix "a b %" test_constants) = Raise (UnknownToken "%").
Proof. repeat split; vm_compute; reflexivity. Qed.

Example float_samples :
  fst (process_data [("A", VStr "|10 4 /|"); ("B", VStr "|1 3 /|");
                     ("C", VStr "|A 0 min|"); ("D", VStr "|10 5 /|");
                     ("E", VStr "|1 100000 /|")] [] ∅)
  = Return ["2.5 -> 10 4 /"; "0.3333333333333333 -> 1 3 /"; "0 -> A 0 min";
            "2.0 -> 10 5 /"; "1e-05 -> 1 100000 /"].
Proof. vm_compute. reflexivity. Qed.

Example repr_samples :
  PyRepr.py_str (VList [VNum (NInt 1); VStr "a"; VNum (NBool true);
                        VDict [("k", VStr "v")]])
  = "[1, 'a', True, {'k': 'v'}]".
Proof. reflexivity. Qed.

Example test_process_data :
  fst (process_data test_data [] ∅) =
  Return ["10 -> Key1"; "20 -> Key2"; "(list 1 2 3) -> Key3";
          "30 -> Key1 Key2 +"].
Proof. vm_compute. reflexivity. Qed.

(** ** Unfolding equations *)

Lemma eval_tokens_cons token rest stack :
  eval_tokens (token :: rest) stack =
  if PyStr.isdigit token then
    do n <- py_int token;
    eval_tokens rest (n :: stack)
  else
    do known <- dict_contains token;
    if known then
      do v <- dict_get token;
      eval_tokens rest (v :: stack)
    else
      match assoc token OPERATORS with
      | Some op =>
          do bs <- pop stack;
          do as_ <- pop (snd bs);
          do result <- lift_arith (op (fst as_) (fst bs));
          eval_tokens rest (result :: snd as_)
      | None => raise (UnknownToken token)
      end.
Proof. reflexivity. Qed.

(** ** The evaluator only reads [constants] *)

Section ReadOnly.

Lemma read_only_ret {A} (a : A) : read_only (ret a).
Proof. intros c. reflexivity. Qed.

Lemma read_only_raise {A} (e : exn) : read_only (@raise A e).
Proof. intros c. reflexivity. Qed.

Lemma read_only_bind {A B} (m : M A) (k : A -> M B) :
  read_only m -> (forall a, read_only (k a)) -> read_only (bind m k).
Proof.
  intros Hm Hk c. unfold bind.
  specialize (Hm c). destruct (m c) as [[a | e] c']; simpl in *; subst.
  - apply Hk.
  - reflexivity.
Qed.

Lemma read_only_dict_contains key : read_only (dict_contains key).
Proof. intros c. reflexivity. Qed.

Lemma read_only_dict_get key : read_only (dict_get key).
Proof. intros c. unfold dict_get. destruct (c !! key); reflexivity. Qed.

Lemma read_only_lift_arith {A} (r : arith_error + A) :
  read_only (lift_arith r).
Proof. destruct r; [apply read_only_raise | apply read_only_ret]. Qed.

Lemma read_only_pop stack : read_only (pop stack).
Proof. destruct stack; [apply read_only_raise | apply read_only_ret]. Qed.

Lemma read_only_py_int token : read_only (py_int token).
Proof.
  unfold py_int.
  destruct (PyStr.all_chars _ _); [apply read_only_ret | apply read_only_raise].
Qed.

Lemma read_only_eval_tokens tokens :
  forall stack, read_only (eval_tokens tokens stack).
Proof.
  induction tokens as [| token rest IH]; intros stack.
  - apply read_only_ret.
  - rewrite eval_tokens_cons.
    destruct (PyStr.isdigit token).
    + apply read_only_bind; [apply read_only_py_int | intros; apply IH].
    + apply read_only_bind; [apply read_only_dict_contains |].
      intros [|].
      * apply read_only_bind; [apply read_only_dict_get | intros; apply IH].
      * destruct (assoc token OPERATORS) as [op |];
          [| apply read_only_raise].
        apply read_only_bind; [apply read_only_pop | intros bs].
        apply read_only_bind; [apply read_only_pop | intros as_].
        apply read_only_bind; [apply read_only_lift_arith | intros; apply IH].
Qed.

Lemma read_only_evaluate_infix expression :
  read_only (evaluate_infix expression).
Proof.
  unfold evaluate_infix.
  apply read_only_bind; [apply read_only_eval_tokens | intros stack].
  apply read_only_bind; [apply read_only_pop | intros; apply read_only_ret].
Qed.

End ReadOnly.

(** ** C1: the end-to-end run of the test document *)

(** C1. Processing Key1 = 10, Key2 = 20, Key3 = [1, 2, 3] and
    Key4 = "|Key1 Key2 +|" in that order, from the empty dictionary and
    with no comments, gives exactly the four lines below; the line of the
    expression entry carries the expression text, not the name Key4. *)
Theorem process_data_end_to_end :
  fst (process_data
         [ ("Key1", VNum (NInt 10));
           ("Key2", VNum (NInt 20));
           ("Key3", VList [VNum (NInt 1); VNum (NInt 2); VNum (NInt 3)]);
           ("Key4", VStr "|Key1 Key2 +|") ]
         [] ∅)
  = Return ["10 -> Key1"; "20 -> Key2"; "(list 1 2 3) -> Key3";
            "30 -> Key1 Key2 +"].
Proof. vm_compute. reflexivity. Qed.

(** ** C8: the evaluator does not touch the dictionary *)

(** C8. Whatever the expression and the dictionary, and whether the
    evaluation returns or raises, the dictionary after [evaluate_infix] is
    the dictionary before it. *)
Theorem evaluate_infix_keeps_constants :
  forall (expression : string) (constants : gmap string number),
    snd (evaluate_infix expression constants) = constants.
Proof. intros expression constants. apply read_only_evaluate_infix. Qed.

(** ** C10: values left on the stack *)

(** C10. When the loop over the tokens ends with two values or more on the
    stack, [evaluate_infix] raises nothing and returns the value pushed
    last; the others are dropped. *)
Theorem evaluate_infix_extra_values :
  forall (expression : string) (constants : gmap string number)
         (top next : number) (below : list number),
    fst (eval_tokens (PyStr.split expression) [] constants)
    = Return (top :: next :: below) ->
    fst (evaluate_infix expression constants) = Return top.
Proof.
  intros expression constants top next below H.
  unfold evaluate_infix, bind.
  destruct (eval_tokens (PyStr.split expression) [] constants) as [o c'].
  simpl in H. subst o. reflexivity.
Qed.

Lemma evaluate_infix_extra_values_witness :
  fst (eval_tokens (PyStr.split "7 8 9") [] ∅)
  = Return [NInt 9; NInt 8; NInt 7]
  /\ fst (evaluate_infix "7 8 9" ∅) = Return (NInt 9).
Proof.
  split; [reflexivity |].
  apply (evaluate_infix_extra_values "7 8 9" ∅ (NInt 9) (NInt 8) [NInt 7]).
  reflexivity.
Defined.

(** ** C4: tokens that are neither literal, name nor operator *)

Lemma eval_tokens_app pre :
  forall rest stack c,
    eval_tokens (pre ++ rest) stack c
    = bind (eval_tokens pre stack) (eval_tokens rest) c.
Proof.
  induction pre as [| token pre IH]; intros rest stack c; [reflexivity |].
  rewrite <- app_comm_cons, !eval_tokens_cons.
  assert (Hstep : forall st c0,
             eval_tokens (pre ++ rest) st c0
             = match eval_tokens pre st c0 with
               | (Return a, c') => eval_tokens rest a c'
               | (Raise e, c') => (Raise e, c')
               end) by (intros; apply IH).
  destruct (PyStr.isdigit token); unfold bind.
  { destruct (py_int token c) as [[n | e] c']; [apply Hstep | reflexivity]. }
  destruct (dict_contains token c) as [[[|] | e] c']; [| | reflexivity].
  { destruct (dict_get token c') as [[v | e] c'']; [apply Hstep | reflexivity]. }
  destruct (assoc token OPERATORS) as [op |]; [| reflexivity].
  destruct (pop stack c') as [[bs | e] c1]; [| reflexivity].
  destruct (pop (snd bs) c1) as [[as_ | e] c2]; [| reflexivity].
  destruct (lift_arith (op (fst as_) (fst bs)) c2) as [[r | e] c3];
    [apply Hstep | reflexivity].
Qed.

(** C4, as the code has it.  A token that is no digit string ([isdigit]
    does not hold for it), no key of the dictionary and no operator makes
    [evaluate_infix] raise the unknown-token [ValueError] for that token,
    once the tokens before it have been evaluated without an exception. *)
Theorem unknown_token_raises :
  forall (expression : string) (constants : gmap string number)
         (pre post : list string) (token : string) (stack : list number),
    PyStr.split expression = pre ++ token :: post ->
    PyStr.isdigit token = false ->
    constants !! token = None ->
    assoc token OPERATORS = None ->
    fst (eval_tokens pre [] constants) = Return stack ->
    evaluate_infix expression constants = (Raise (UnknownToken token), constants).
Proof.
  intros expression constants pre post token stack Hsplit Hdigit Hkey Hop Hpre.
  unfold evaluate_infix. rewrite Hsplit.
  unfold bind at 1. rewrite eval_tokens_app. unfold bind at 1.
  pose proof (read_only_eval_tokens pre [] constants) as Hc.
  destruct (eval_tokens pre [] constants) as [o c']. simpl in Hpre, Hc. subst o c'.
  rewrite eval_tokens_cons, Hdigit.
  unfold bind, dict_contains. rewrite Hkey, Hop.
  rewrite bool_decide_eq_false_2; [reflexivity |].
  intros [v Hv]. discriminate.
Qed.

Lemma unknown_token_raises_witness :
  evaluate_infix "a b %" test_constants
  = (Raise (UnknownToken "%"), test_constants).
Proof.
  apply (unknown_token_raises "a b %" test_constants ["a"; "b"] [] "%"
           [NInt 5; NInt 10]); reflexivity.
Defined.

(** The claim as the specification words it fails three times: a
    dictionary may bind the token, which is then pushed as a name; an
    earlier token may raise first; and a token made of digits that are not
    decimal, such as the superscript two (U+00B2), is no integer literal
    but passes [isdigit], so that [int] is called and raises its own
    [ValueError]. *)
Lemma unknown_token_claim_fails :
  (In "%" (PyStr.split "1 2 %")
   /\ PyStr.isdigit "%" = false
   /\ assoc "%" OPERATORS = None
   /\ fst (evaluate_infix "1 2 %" (<["%" := NInt 7]> ∅)) = Return (NInt 7))
  /\
  (In "%" (PyStr.split "+ %")
   /\ fst (evaluate_infix "+ %" ∅) = Raise IndexError)
  /\
  (In (String "178" EmptyString) (PyStr.split (String "178" EmptyString))
   /\ PyStr.all_chars PyStr.isdecimal (String "178" EmptyString) = false
   /\ assoc (String "178" EmptyString) OPERATORS = None
   /\ (∅ : gmap string number) !! String "178" EmptyString = None
   /\ fst (evaluate_infix (String "178" EmptyString) ∅)
      = Raise (InvalidLiteral (String "178" EmptyString))).
Proof.
  split; [split; [| split; [| split]] | split; [split | split; [| split; [| split; [| split]]]]];
    try reflexivity; simpl; tauto.
Qed.

(** ** C5: an operator without its two operands *)

(** C5, on the code.  The entry K = "|1 +|" applies an operator with one
    value on the stack: [deque.pop] raises [IndexError], which is no
    [ValueError], so the handler of [process_data] lets it through without
    the name of the entry.  The unknown token of K = "|1 %|" is wrapped. *)
Theorem stack_underflow_is_not_wrapped :
  fst (process_data [("K", VStr "|1 +|")] [] ∅) = Raise IndexError
  /\ is_ValueError IndexError = false
  /\ fst (process_data [("K", VStr "|1 %|")] [] ∅)
     = Raise (ExpressionError "K" (UnknownToken "%")).
Proof. repeat split. Qed.

(** Whatever the entry, an exception of the evaluator that is no
    [ValueError] leaves [render_entry] as it is. *)
Lemma render_entry_lets_through key s c e c' :
  is_expression s = true ->
  evaluate_infix (PyStr.strip (PyStr.slice_1_m1 s)) c = (Raise e, c') ->
  is_ValueError e = false ->
  render_entry key (VStr s) c = (Raise e, c').
Proof.
  intros Hs He Hv. unfold render_entry. rewrite Hs.
  unfold except_ValueError, bind. rewrite He, Hv. reflexivity.
Qed.

(** ** C3: which strings are expressions *)

Lemma render_entry_string key s c :
  render_entry key (VStr s) c =
  if is_expression s then
    match evaluate_infix (PyStr.strip (PyStr.slice_1_m1 s)) c with
    | (Return result, _) =>
        (Return (num_str result +:+ " -> " +:+ PyStr.strip (PyStr.slice_1_m1 s)),
         <[key := result]> c)
    | (Raise e, _) =>
        (Raise (if is_ValueError e then ExpressionError key e else e), c)
    end
  else (Raise (UnsupportedValue key), c).
Proof.
  unfold render_entry.
  destruct (is_expression s); [| reflexivity].
  cbv zeta. unfold except_ValueError, bind.
  pose proof (read_only_evaluate_infix (PyStr.strip (PyStr.slice_1_m1 s)) c) as Hc.
  destruct (evaluate_infix _ c) as [[r | e] c']; simpl in Hc; subst c'.
  - reflexivity.
  - destruct (is_ValueError e); reflexivity.
Qed.

(** C3, as the code has it.  A string entry is an expression exactly when
    the string itself, not trimmed, starts and ends with the bar.  Such an
    entry is evaluated: on a result it gives the line and binds the name,
    on a [ValueError] of the evaluator it raises the wrapped error, and
    any other exception passes.  Every other string raises the
    unsupported-value error. *)
Theorem string_entry_dispatch :
  forall (key s : string) (constants : gmap string number),
    render_entry key (VStr s) constants =
    if PyStr.startswith "|" s && PyStr.endswith "|" s then
      let expression := PyStr.strip (PyStr.slice_1_m1 s) in
      match evaluate_infix expression constants with
      | (Return result, _) =>
          (Return (num_str result +:+ " -> " +:+ expression),
           <[key := result]> constants)
      | (Raise e, _) =>
          (Raise (if is_ValueError e then ExpressionError key e else e),
           constants)
      end
    else (Raise (UnsupportedValue key), constants).
Proof. intros key s constants. apply render_entry_string. Qed.

(** An expression entry never ends in the unsupported-value error. *)
Lemma expression_entry_is_supported key s c k :
  is_expression s = true ->
  fst (render_entry key (VStr s) c) <> Raise (UnsupportedValue k).
Proof.
  intros Hs. rewrite render_entry_string, Hs.
  destruct (evaluate_infix _ c) as [[r | e] c']; [discriminate |].
  simpl. destruct (is_ValueError e) eqn:He; [discriminate |].
  intros [= ->]. discriminate.
Qed.

(** The claim with the trimmed form fails: the string " |1| " has a
    trimmed form that starts and ends with the bar, and is refused. *)
Lemma trimmed_expression_claim_fails :
  PyStr.startswith "|" (PyStr.strip " |1| ") = true
  /\ PyStr.endswith "|" (PyStr.strip " |1| ") = true
  /\ fst (render_entry "K" (VStr " |1| ") ∅) = Raise (UnsupportedValue "K").
Proof. repeat split. Qed.

(** ** C9: boolean entries *)

Lemma attach_comment_snoc comment_dict output_lines line :
  attach_comment comment_dict (output_lines ++ [line])
  = output_lines ++
    [match comment_dict !! length output_lines with
     | Some c => line +:+ "   {! " +:+ c +:+ " !}"
     | None => line
     end].
Proof.
  unfold attach_comment. rewrite length_app. simpl.
  replace (length output_lines + 1 - 1)%nat with (length output_lines) by lia.
  destruct (comment_dict !! length output_lines) as [c |]; [| reflexivity].
  replace (length output_lines) with (length output_lines + 0)%nat at 1 by lia.
  rewrite alter_app_r. reflexivity.
Qed.

(** C9. An entry with a valid name whose value is a boolean does not
    raise: [isinstance(value, (int, float))] holds for it, the line is
    "True -> name" or "False -> name", followed by the comment of that
    line index when there is one, and the name is bound to the boolean. *)
Theorem boolean_entry_is_numeric :
  forall (comment_dict : gmap nat string) (output_lines : list string)
         (key : string) (b : bool) (constants : gmap string number),
    Re.re_match NAME_REGEX key = true ->
    process_entry comment_dict output_lines (key, VNum (NBool b)) constants
    = (Return
         (output_lines ++
          [match comment_dict !! length output_lines with
           | Some c =>
               (if b then "True" else "False") +:+ " -> " +:+ key
               +:+ "   {! " +:+ c +:+ " !}"
           | None => (if b then "True" else "False") +:+ " -> " +:+ key
           end]),
       <[key := NBool b]> constants).
Proof.
  intros comment_dict output_lines key b constants Hname.
  unfold process_entry, validate_name, render_entry. rewrite Hname.
  unfold bind, ret, dict_set. simpl negb. cbv iota beta.
  rewrite attach_comment_snoc.
  destruct b; destruct (comment_dict !! length output_lines); reflexivity.
Qed.

Lemma boolean_entry_is_numeric_witness :
  process_entry ∅ ["10 -> Key1"] ("Flag", VNum (NBool true)) ∅
  = (Return ["10 -> Key1"; "True -> Flag"], <["Flag" := NBool true]> ∅).
Proof.
  exact (boolean_entry_is_numeric ∅ ["10 -> Key1"] "Flag" true ∅ eq_refl).
Defined.

(** ** C7: the names accepted *)

Lemma in_class_start c :
  Re.in_class [("_", "_"); ("A", "Z")]%char c = is_name_start c.
Proof.
  destruct c as [[] [] [] [] [] [] [] []]; reflexivity.
Qed.

Lemma in_class_rest c :
  Re.in_class [("_", "_"); ("a", "z"); ("A", "Z"); ("0", "9")]%char c
  = is_name_char c.
Proof.
  destruct c as [[] [] [] [] [] [] [] []]; reflexivity.
Qed.

Lemma newline_is_no_name_char c :
  Ascii.eqb c "010" = true -> is_name_char c = false.
Proof. intros H. apply Ascii.eqb_eq in H. subst c. reflexivity. Qed.

(** The run [[_a-zA-Z0-9]*] followed by [$]. *)
Lemma match_run_dollar s :
  forall at_start,
    Re.match_here
      [Re.ClassStar [("_", "_"); ("a", "z"); ("A", "Z"); ("0", "9")]%char;
       Re.Dollar] at_start s
    = PyStr.all_chars is_name_char s
      || match chop_newline s with
         | Some stem => PyStr.all_chars is_name_char stem
         | None => false
         end.
Proof.
  induction s as [| c s IH]; intros at_start; [reflexivity |].
  specialize (IH false).
  change (Re.match_here
            [Re.ClassStar [("_", "_"); ("a", "z"); ("A", "Z"); ("0", "9")]%char;
             Re.Dollar] at_start (String c s))
    with (Re.in_class [("_", "_"); ("a", "z"); ("A", "Z"); ("0", "9")]%char c
          && Re.match_here
               [Re.ClassStar [("_", "_"); ("a", "z"); ("A", "Z"); ("0", "9")]%char;
                Re.Dollar] false s
          || Re.at_end (String c s) && true).
  rewrite IH, in_class_rest. clear IH.
  destruct s as [| c' s'].
  - simpl. destruct (Ascii.eqb c "010") eqn:Hc.
    + rewrite (newline_is_no_name_char c Hc). reflexivity.
    + destruct (is_name_char c); reflexivity.
  - change (Re.at_end (String c (String c' s'))) with false.
    change (chop_newline (String c (String c' s')))
      with (option_map (String c) (chop_newline (String c' s'))).
    change (PyStr.all_chars is_name_char (String c (String c' s')))
      with (is_name_char c && PyStr.all_chars is_name_char (String c' s')).
    destruct (chop_newline (String c' s')) as [stem |]; simpl option_map; cbv iota.
    + change (PyStr.all_chars is_name_char (String c stem))
        with (is_name_char c && PyStr.all_chars is_name_char stem).
      destruct (is_name_char c), (PyStr.all_chars is_name_char (String c' s')),
        (PyStr.all_chars is_name_char stem); reflexivity.
    + destruct (is_name_char c), (PyStr.all_chars is_name_char (String c' s'));
        reflexivity.
Qed.

(** What [re.match(NAME_REGEX, name)] accepts: the names of the
    specification, and each of them followed by one newline. *)
Lemma accepted_names name :
  Re.re_match NAME_REGEX name
  = name_ok name
    || match chop_newline name with
       | Some stem => name_ok stem
       | None => false
       end.
Proof.
  destruct name as [| c rest]; [reflexivity |].
  change (Re.re_match NAME_REGEX (String c rest))
    with (true && (Re.in_class [("_", "_"); ("A", "Z")]%char c
                   && Re.match_here
                        [Re.ClassStar [("_", "_"); ("a", "z"); ("A", "Z"); ("0", "9")]%char;
                         Re.Dollar] false rest)).
  rewrite match_run_dollar, in_class_start. simpl andb.
  destruct rest as [| c' s'].
  - simpl. destruct (Ascii.eqb c "010"); destruct (is_name_start c); reflexivity.
  - change (chop_newline (String c (String c' s')))
      with (option_map (String c) (chop_newline (String c' s'))).
    unfold name_ok.
    destruct (chop_newline (String c' s')) as [stem |]; simpl option_map; cbv iota.
    + destruct (is_name_start c); reflexivity.
    + destruct (is_name_start c), (PyStr.all_chars is_name_char (String c' s'));
        reflexivity.
Qed.

(** Every name of the specification is accepted. *)
Lemma name_ok_accepted name :
  name_ok name = true -> fst (validate_name name ∅) = Return tt.
Proof.
  intros H. unfold validate_name. rewrite accepted_names, H. reflexivity.
Qed.

(** A refused name ends the run with the invalid-name error, whatever the
    value of the entry and whatever follows it; nothing is bound. *)
Lemma refused_name_aborts comment_dict output_lines key value rest c :
  Re.re_match NAME_REGEX key = false ->
  process_loop comment_dict ((key, value) :: rest) output_lines c
  = (Raise (InvalidName key), c).
Proof.
  intros H. simpl. unfold bind, process_entry, validate_name, bind.
  rewrite H. reflexivity.
Qed.

(** C7, on the code.  "_VALID_NAME" is accepted, "1Invalid" and
    "Invalid-Name" are refused with the invalid-name error; but the name
    made of "A" and a newline, which is not of the form the claim gives, is
    accepted too, because [$] also matches before a final newline. *)
Theorem name_with_final_newline_is_accepted :
  fst (validate_name "_VALID_NAME" ∅) = Return tt
  /\ fst (validate_name "1Invalid" ∅) = Raise (InvalidName "1Invalid")
  /\ fst (validate_name "Invalid-Name" ∅) = Raise (InvalidName "Invalid-Name")
  /\ name_ok (String "A" (String "010" EmptyString)) = false
  /\ fst (validate_name (String "A" (String "010" EmptyString)) ∅) = Return tt.
Proof. repeat split. Qed.

(** ** C6: the dictionary over a run *)

Lemma process_loop_cons comment_dict entry rest output_lines c :
  process_loop comment_dict (entry :: rest) output_lines c
  = match process_entry comment_dict output_lines entry c with
    | (Return output_lines', c') =>
        process_loop comment_dict rest output_lines' c'
    | (Raise e, c') => (Raise e, c')
    end.
Proof. reflexivity. Qed.

Lemma process_loop_app comment_dict l1 :
  forall l2 output_lines c,
    process_loop comment_dict (l1 ++ l2) output_lines c
    = match process_loop comment_dict l1 output_lines c with
      | (Return output_lines', c') =>
          process_loop comment_dict l2 output_lines' c'
      | (Raise e, c') => (Raise e, c')
      end.
Proof.
  induction l1 as [| entry l1 IH]; intros l2 output_lines c; [reflexivity |].
  rewrite <- app_comm_cons, !process_loop_cons.
  destruct (process_entry comment_dict output_lines entry c) as [[o | e] c'];
    [apply IH | reflexivity].
Qed.

(** What a successful iteration does to the dictionary. *)
Lemma process_entry_constants comment_dict output_lines key value c o c' :
  process_entry comment_dict output_lines (key, value) c = (Return o, c') ->
  match value with
  | VNum x => c' = <[key := x]> c
  | VStr s =>
      exists r,
        is_expression s = true
        /\ evaluate_infix (PyStr.strip (PyStr.slice_1_m1 s)) c = (Return r, c)
        /\ c' = <[key := r]> c
  | VList _ | VDict _ | VObj _ _ => c' = c
  end.
Proof.
  unfold process_entry, validate_name.
  destruct (negb (Re.re_match NAME_REGEX key)); [discriminate |].
  unfold bind at 1. unfold ret at 1. unfold bind at 1.
  destruct value as [x | s | l | d | t r].
  - simpl. intros [= _ <-]. reflexivity.
  - rewrite render_entry_string.
    destruct (is_expression s); [| discriminate].
    pose proof (read_only_evaluate_infix (PyStr.strip (PyStr.slice_1_m1 s)) c) as Hc.
    destruct (evaluate_infix _ c) as [[r | e] c1]; simpl in Hc; subst c1;
      [| discriminate].
    intros [= _ <-]. exists r. auto.
  - simpl. intros [= _ <-]. reflexivity.
  - simpl. intros [= _ <-]. reflexivity.
  - discriminate.
Qed.

Lemma process_entry_binds comment_dict output_lines key value c o c' :
  process_entry comment_dict output_lines (key, value) c = (Return o, c') ->
  if binds value then exists r, c' = <[key := r]> c else c' = c.
Proof.
  intros H. apply process_entry_constants in H.
  destruct value as [x | s | l | d | t r]; simpl; eauto.
  destruct H as (r & -> & _ & ->). eauto.
Qed.

(** The names bound by a successful run of the loop. *)
Lemma process_loop_dom comment_dict data :
  forall output_lines c o c',
    process_loop comment_dict data output_lines c = (Return o, c') ->
    dom c' =
    dom c ∪ list_to_set (fst <$> filter (fun e => binds (snd e)) data).
Proof.
  induction data as [| [key value] rest IH]; intros output_lines c o c'.
  - intros [= _ <-]. simpl. rewrite (right_id_L ∅ (∪)). reflexivity.
  - rewrite process_loop_cons.
    destruct (process_entry comment_dict output_lines (key, value) c)
      as [[o1 | e] c1] eqn:Hstep; [| discriminate].
    intros Hrest. apply IH in Hrest. rewrite Hrest.
    apply process_entry_binds in Hstep.
    rewrite filter_cons. simpl.
    destruct (binds value) eqn:Hb.
    + destruct Hstep as [r ->].
      rewrite decide_True by exact I.
      rewrite dom_insert_L, fmap_cons, list_to_set_cons. simpl.
      rewrite (assoc_L (∪)), (comm_L (∪) (dom c)). reflexivity.
    + subst c1. rewrite decide_False by exact id.
      reflexivity.
Qed.

(** A successful run over entries with distinct names, none of them bound
    at the start, only adds bindings. *)
Lemma process_loop_grows comment_dict data :
  forall output_lines c o c',
    NoDup (fst <$> data) ->
    (forall key, key ∈ fst <$> data -> c !! key = None) ->
    process_loop comment_dict data output_lines c = (Return o, c') ->
    c ⊆ c'.
Proof.
  induction data as [| [key value] rest IH]; intros output_lines c o c' Hnd Hfresh.
  - intros [= _ <-]. reflexivity.
  - rewrite process_loop_cons.
    destruct (process_entry comment_dict output_lines (key, value) c)
      as [[o1 | e] c1] eqn:Hstep; [| discriminate].
    intros Hrest.
    rewrite fmap_cons in Hnd. apply NoDup_cons in Hnd as [Hkey Hnd].
    assert (Hc : c ⊆ c1).
    { apply process_entry_binds in Hstep.
      destruct (binds value).
      - destruct Hstep as [r ->]. apply insert_subseteq.
        apply Hfresh. rewrite fmap_cons. left.
      - subst c1. reflexivity. }
    transitivity c1; [exact Hc |].
    apply (IH _ _ _ _ Hnd) in Hrest; [exact Hrest |].
    intros key' Hin.
    apply process_entry_binds in Hstep.
    destruct (binds value).
    + destruct Hstep as [r ->].
      rewrite lookup_insert_ne by (intros ->; contradiction).
      apply Hfresh. rewrite fmap_cons. right. exact Hin.
    + subst c1. apply Hfresh. rewrite fmap_cons. right. exact Hin.
Qed.

(** A run that succeeds has succeeded on every prefix. *)
Lemma process_loop_prefix comment_dict l1 l2 output_lines c o c' :
  process_loop comment_dict (l1 ++ l2) output_lines c = (Return o, c') ->
  exists o1 c1,
    process_loop comment_dict l1 output_lines c = (Return o1, c1)
    /\ process_loop comment_dict l2 o1 c1 = (Return o, c').
Proof.
  rewrite process_loop_app.
  destruct (process_loop comment_dict l1 output_lines c) as [[o1 | e] c1];
    [eauto | discriminate].
Qed.

(** After a prefix, the names of the entries still to come are unbound. *)
Lemma names_to_come_unbound comment_dict l1 l2 output_lines c0 o1 c1 :
  NoDup (fst <$> l1 ++ l2) ->
  (forall key, key ∈ fst <$> l1 ++ l2 -> c0 !! key = None) ->
  process_loop comment_dict l1 output_lines c0 = (Return o1, c1) ->
  forall key, key ∈ fst <$> l2 -> c1 !! key = None.
Proof.
  intros Hnd Hfresh Hrun key Hin.
  rewrite fmap_app in Hnd, Hfresh.
  apply NoDup_app in Hnd as (_ & Hdisj & _).
  apply not_elem_of_dom. rewrite (process_loop_dom _ _ _ _ _ _ Hrun).
  intros [Hc | Hl]%elem_of_union.
  - apply elem_of_dom in Hc as [v Hv].
    rewrite Hfresh in Hv; [discriminate |].
    apply elem_of_app. right. exact Hin.
  - apply elem_of_list_to_set in Hl.
    apply (Hdisj key); [| exact Hin].
    apply list_elem_of_fmap in Hl as ([k v] & -> & Hf).
    apply list_elem_of_filter in Hf as [_ Hf].
    apply list_elem_of_fmap. exists (k, v). auto.
Qed.

(** C6.  Take a run of [process_data] that succeeds, over entries with
    distinct names (the keys of a dictionary), none of them bound at the
    start.  Then, for every [n], the dictionary after the first [n]
    entries binds the names bound at the start and the names of the number
    and expression entries among those [n], and no other; it contains every
    earlier dictionary; and the [n]-th entry finds its own name unbound,
    is evaluated in the dictionary of the entries before it, and adds its
    binding, or nothing if it is a list or a table, for the entries after
    it. *)
Theorem constants_grow_in_document_order :
  forall (data : list (string * value)) (comments : list (nat * string))
         (c0 : gmap string number) (out : list string)
         (cN : gmap string number),
    NoDup (fst <$> data) ->
    (forall key, key ∈ fst <$> data -> c0 !! key = None) ->
    process_data data comments c0 = (Return out, cN) ->
    constants_after data comments c0 0 = c0
    /\ constants_after data comments c0 (length data) = cN
    /\ forall n, n <= length data ->
         dom (constants_after data comments c0 n)
         = dom c0 ∪
           list_to_set (fst <$> filter (fun e => binds (snd e)) (take n data))
         /\ (forall m, m <= n ->
               constants_after data comments c0 m
               ⊆ constants_after data comments c0 n)
         /\ (forall key value,
               data !! n = Some (key, value) ->
               constants_after data comments c0 n !! key = None
               /\ match value with
                  | VNum x =>
                      constants_after data comments c0 (S n)
                      = <[key := x]> (constants_after data comments c0 n)
                  | VStr s =>
                      exists r,
                        evaluate_infix (PyStr.strip (PyStr.slice_1_m1 s))
                          (constants_after data comments c0 n)
                        = (Return r, constants_after data comments c0 n)
                        /\ constants_after data comments c0 (S n)
                           = <[key := r]> (constants_after data comments c0 n)
                  | VList _ | VDict _ | VObj _ _ =>
                      constants_after data comments c0 (S n)
                      = constants_after data comments c0 n
                  end).
Proof.
  intros data comments c0 out cN Hnd Hfresh Hrun.
  unfold constants_after, process_data in *.
  set (cd := comment_dict_of comments) in *.
  split; [reflexivity |].
  split; [rewrite firstn_all, Hrun; reflexivity |].
  intros n Hn.
  assert (Hpre : forall k, exists ok ck rest,
             data = take k data ++ rest
             /\ process_loop cd (take k data) [] c0 = (Return ok, ck)
             /\ process_loop cd rest ok ck = (Return out, cN)).
  { intros k. pose proof Hrun as H. rewrite <- (take_drop k data) in H.
    apply process_loop_prefix in H as (ok & ck & H1 & H2).
    exists ok, ck, (drop k data). rewrite take_drop. auto. }
  destruct (Hpre n) as (on & cn & rest & Hdata & Hrun_n & Hrest).
  rewrite Hrun_n. simpl.
  split; [apply (process_loop_dom _ _ _ _ _ _ Hrun_n) |].
  split.
  - intros m Hm.
    destruct (Hpre m) as (om & cm & restm & Hdatam & Hrun_m & _).
    rewrite Hrun_m. simpl.
    assert (Hseg : take n data = take m data ++ take (n - m) (drop m data)).
    { rewrite take_take_drop. f_equal. lia. }
    rewrite Hseg in Hrun_n.
    apply process_loop_prefix in Hrun_n as (om' & cm' & H1 & H2).
    rewrite Hrun_m in H1. injection H1 as <- <-.
    assert (Hnd' : NoDup (fst <$> take m data ++ take (n - m) (drop m data))).
    { rewrite <- Hseg. rewrite Hdata, fmap_app in Hnd.
      apply NoDup_app in Hnd as [Hnd _]. exact Hnd. }
    apply (process_loop_grows _ _ _ _ _ _
             ltac:(rewrite fmap_app in Hnd';
                   apply NoDup_app in Hnd' as (_ & _ & H); exact H)
             ltac:(apply (names_to_come_unbound _ _ _ _ _ _ _ Hnd'
                            ltac:(intros key Hin; apply Hfresh;
                                  rewrite <- Hseg in Hin;
                                  apply list_elem_of_fmap in Hin as (e & -> & Hin);
                                  apply list_elem_of_fmap; exists e;
                                  split; [reflexivity |];
                                  apply (subseteq_take n); exact Hin)
                            Hrun_m)) H2).
  - intros key value Hlook.
    assert (Htake : take (S n) data = take n data ++ [(key, value)])
      by (apply take_S_r; exact Hlook).
    destruct (Hpre (S n)) as (os & cs & rests & Hdatas & Hrun_s & _).
    rewrite Hrun_s. simpl.
    assert (Hnd' : NoDup (fst <$> take n data ++ [(key, value)])).
    { rewrite <- Htake. rewrite Hdatas, fmap_app in Hnd.
      apply NoDup_app in Hnd as [Hnd _]. exact Hnd. }
    assert (Hfresh' : forall k, k ∈ fst <$> take n data ++ [(key, value)] ->
                                c0 !! k = None).
    { intros k Hin. apply Hfresh. rewrite <- Htake in Hin.
      apply list_elem_of_fmap in Hin as (e & -> & Hin).
      apply list_elem_of_fmap. exists e. split; [reflexivity |].
      apply (subseteq_take (S n)). exact Hin. }
    split.
    + apply (names_to_come_unbound _ _ _ _ _ _ _ Hnd' Hfresh' Hrun_n).
      rewrite list_fmap_singleton. apply list_elem_of_singleton. reflexivity.
    + rewrite Htake in Hrun_s.
      apply process_loop_prefix in Hrun_s as (on' & cn' & H1 & H2).
      rewrite Hrun_n in H1. injection H1 as <- <-.
      rewrite process_loop_cons in H2.
      destruct (process_entry cd on (key, value) cn) as [[o1 | e] c1] eqn:Hstep;
        [| discriminate].
      injection H2 as _ <-.
      apply process_entry_constants in Hstep.
      destruct value as [x | s | l | d | t r]; try exact Hstep.
      destruct Hstep as (r & _ & Heval & Hc1). exists r. auto.
Qed.

Lemma constants_grow_in_document_order_witness :
  constants_after test_data [] ∅ 0 = ∅
  /\ constants_after test_data [] ∅ (length test_data) = final_constants.
Proof.
  assert (Hnd : NoDup (fst <$> test_data)).
  { apply (bool_decide_unpack _). vm_compute. exact I. }
  assert (Hrun : process_data test_data [] ∅
                 = (Return ["10 -> Key1"; "20 -> Key2"; "(list 1 2 3) -> Key3";
                            "30 -> Key1 Key2 +"], final_constants)).
  { vm_compute. reflexivity. }
  destruct (constants_grow_in_document_order test_data [] ∅ _ _ Hnd
              (fun key _ => lookup_empty key) Hrun) as (H0 & HN & _).
  split; [exact H0 | exact HN].
Defined.

(** ** C2: the comment blocks *)

Lemma enumerate_from_app {A} (l1 l2 : list A) :
  forall n,
    enumerate_from n (l1 ++ l2)
    = enumerate_from n l1 ++ enumerate_from (n + length l1) l2.
Proof.
  induction l1 as [| x l1 IH]; intros n; simpl.
  - f_equal. lia.
  - rewrite IH. do 3 f_equal. lia.
Qed.

(** The four cases of [scan_line]. *)
Lemma scan_line_open cl cm inside buf start n line :
  opens line = true ->
  scan_line (ScanState cl cm inside buf start) (n, line)
  = ScanState cl cm true (buf ++ [line]) (Some n).
Proof. unfold opens, scan_line. intros ->. reflexivity. Qed.

Lemma scan_line_close cl cm buf start n line :
  opens line = false ->
  closes line = true ->
  scan_line (ScanState cl cm true buf start) (n, line)
  = ScanState cl (cm ++ [(default 0%nat start, block_text (buf ++ [line]))])
              false [] start.
Proof. unfold opens, closes, scan_line. intros -> ->. reflexivity. Qed.

Lemma scan_line_inside cl cm buf start n line :
  opens line = false ->
  closes line = false ->
  scan_line (ScanState cl cm true buf start) (n, line)
  = ScanState cl cm true (buf ++ [line]) start.
Proof. unfold opens, closes, scan_line. intros -> ->. reflexivity. Qed.

Lemma scan_line_outside cl cm buf start n line :
  opens line = false ->
  scan_line (ScanState cl cm false buf start) (n, line)
  = ScanState (cl ++ [line]) cm false buf start.
Proof.
  unfold opens, scan_line. intros ->. simpl.
  rewrite andb_false_r. reflexivity.
Qed.

(** Inside a block, lines without markers go to the buffer. *)
Lemma scan_body body :
  Forall (fun l => opens l = false /\ closes l = false) body ->
  forall n cl cm buf start,
    fold_left scan_line (enumerate_from n body)
              (ScanState cl cm true buf start)
    = ScanState cl cm true (buf ++ body) start.
Proof.
  induction 1 as [| line body [Ho Hc] _ IH]; intros n cl cm buf start;
    cbn [fold_left enumerate_from].
  - rewrite app_nil_r. reflexivity.
  - rewrite (scan_line_inside _ _ _ _ _ _ Ho Hc), IH, <- app_assoc.
    reflexivity.
Qed.

Lemma scan_layout same_line n lines kept found :
  layout same_line n lines kept found ->
  same_line = false ->
  forall cl cm start,
    exists start',
      fold_left scan_line (enumerate_from n lines)
                (ScanState cl cm false [] start)
      = ScanState (cl ++ kept) (cm ++ found) false [] start'.
Proof.
  intros H Hflag.
  induction H as [n
                 | n line rest kept found Ho Hc _ IH
                 | n first body last rest kept found Ho Hc Hbody Ho' Hc' _ IH
                 | n line rest kept found Hsame _ _ _]; intros cl cm start.
  - exists start. simpl. rewrite !app_nil_r. reflexivity.
  - cbn [fold_left enumerate_from].
    rewrite (scan_line_outside _ _ _ _ _ _ Ho).
    destruct (IH (cl ++ [line]) cm start) as [start' ->].
    exists start'. rewrite <- app_assoc. reflexivity.
  - cbn [fold_left enumerate_from].
    rewrite (scan_line_open _ _ _ _ _ _ _ Ho).
    rewrite enumerate_from_app, fold_left_app, (scan_body body Hbody).
    cbn [fold_left enumerate_from].
    rewrite (scan_line_close _ _ _ _ _ _ Ho' Hc').
    replace (S (S n + length body))%nat with (n + length body + 2)%nat by lia.
    destruct (IH cl (cm ++ [(n, block_text (first :: body ++ [last]))])
                (Some n)) as [start' Heq].
    exists start'.
    etransitivity; [exact Heq |].
    rewrite <- app_assoc. reflexivity.
  - congruence.
Qed.

(** Blocks over several lines.  When the lines of the text are plain
    lines and comment blocks, each block opening on one line and closing
    on a later one, no line holding two markers, [remove_comments] returns
    the plain lines joined by newlines, and one comment per block, with
    the number of the opening line and the lines of the block joined by
    spaces and trimmed. *)
Theorem remove_comments_blocks :
  forall (data : string) (kept : list string) (found : list (nat * string)),
    layout false 0 (PyStr.splitlines data) kept found ->
    remove_comments data
    = (PyStr.join (String "010" EmptyString) kept, found).
Proof.
  intros data kept found H.
  unfold remove_comments, scan_lines, scan_init.
  destruct (scan_layout _ _ _ _ _ H eq_refl [] [] None) as [start' ->].
  reflexivity.
Qed.

Lemma remove_comments_blocks_witness :
  remove_comments test_document
  = (PyStr.join (String "010" EmptyString) ["Key1 = 10"; "Key2 = 20"],
     [(1, block_text ["{{! "; "This is a comment "; "}}"])]).
Proof.
  apply (remove_comments_blocks test_document).
  apply (layout_plain false 0 "Key1 = 10"); [reflexivity | reflexivity |].
  apply (layout_block false 1 "{{! " ["This is a comment "] "}}" ["Key2 = 20"]);
    try reflexivity.
  - repeat constructor.
  - apply layout_plain; [reflexivity | reflexivity | apply layout_end].
Defined.

(** The claim with blocks that close on their opening line fails: the
    text below is one such block and one plain line, and
    [remove_comments] returns no line and no comment. *)
Lemma one_line_block_claim_fails :
  ~ (forall (data : string) (kept : list string) (found : list (nat * string)),
       layout true 0 (PyStr.splitlines data) kept found ->
       fst (remove_comments data) = PyStr.join (String "010" EmptyString) kept
       /\ fst <$> snd (remove_comments data) = fst <$> found).
Proof.
  intros claim.
  destruct (claim ("{{! c }}" +:+ String "010" "Key = 1")
                  ["Key = 1"] [(0%nat, block_text ["{{! c }}"])]) as [H _].
  - apply layout_inline; [reflexivity | reflexivity |].
    apply layout_plain; [reflexivity | reflexivity | apply layout_end].
  - discriminate H.
Qed.

(** C2, on the code.  The text made of the line "{{! c }}" and the line
    "Key = 1" has balanced markers that are not nested: its first line is
    one comment block, of the format the docstring of [remove_comments]
    gives, and its second line is plain.  The claim gives the cleaned text
    "Key = 1" and one comment with the line number 0.  [remove_comments]
    never looks for the closing marker on the line that opens a block: it
    stays inside the comment, drops "Key = 1" and records no comment. *)
Theorem one_line_block_swallows_the_text :
  layout true 0
    (PyStr.splitlines ("{{! c }}" +:+ String "010" "Key = 1"))
    ["Key = 1"] [(0%nat, block_text ["{{! c }}"])]
  /\ remove_comments ("{{! c }}" +:+ String "010" "Key = 1")
     = (EmptyString, []).
Proof.
  split; [| reflexivity].
  apply layout_inline; [reflexivity | reflexivity |].
  apply layout_plain; [reflexivity | reflexivity | apply layout_end].
Qed.

(** * Further properties *)

(** ** Splitting into tokens *)

Lemma split_blank s :
  PyStr.all_chars PyStr.isspace s = true -> PyStr.split s = [].
Proof.
  induction s as [| c s IH]; [reflexivity |].
  simpl. intros [Hc Hs]%andb_prop. rewrite Hc. auto.
Qed.

Lemma split_token s :
  s <> EmptyString -> no_space s = true -> PyStr.split s = [s].
Proof.
  induction s as [| c s IH]; [congruence |].
  intros _ [Hc Hs]%andb_prop. apply negb_true_iff in Hc.
  cbn [PyStr.split]. rewrite Hc.
  destruct s as [| c' s']; [reflexivity |].
  pose proof Hs as [Hc' _]%andb_prop. apply negb_true_iff in Hc'.
  rewrite Hc'. rewrite IH; [reflexivity | discriminate | exact Hs].
Qed.

Lemma returns_with {A} (m : M A) c a :
  read_only m -> fst (m c) = Return a -> m c = (Return a, c).
Proof.
  intros Hm H. specialize (Hm c).
  destruct (m c) as [o c']. simpl in *. congruence.
Qed.

(** ** The evaluator on the simplest expressions *)

(** An expression made of whitespace only, the empty one included, has
    no token: the final [stack.pop()] raises [IndexError]. *)
Theorem blank_expression_raises_IndexError :
  forall (expression : string) (constants : gmap string number),
    PyStr.all_chars PyStr.isspace expression = true ->
    evaluate_infix expression constants = (Raise IndexError, constants).
Proof.
  intros expression constants H. unfold evaluate_infix.
  rewrite (split_blank _ H). reflexivity.
Qed.

Lemma blank_expression_raises_IndexError_witness :
  evaluate_infix "   " ∅ = (Raise IndexError, ∅).
Proof. apply (blank_expression_raises_IndexError "   " ∅). reflexivity. Defined.

(** ** Integer literals *)

Lemma uint_str_decimal d :
  PyStr.all_chars PyStr.isdecimal (NilEmpty.string_of_uint d) = true.
Proof. induction d; simpl; auto. Qed.

Lemma all_chars_impl (p q : ascii -> bool) s :
  (forall c, p c = true -> q c = true) ->
  PyStr.all_chars p s = true -> PyStr.all_chars q s = true.
Proof.
  intros Hpq. induction s as [| c s IH]; [reflexivity |].
  simpl. intros [Hc Hs]%andb_prop. rewrite (Hpq c Hc). auto.
Qed.

Lemma isdecimal_isdigit c :
  PyStr.isdecimal c = true -> PyStr.isdigit_char c = true.
Proof. unfold PyStr.isdigit_char. intros ->. reflexivity. Qed.

Lemma isdecimal_no_space c :
  PyStr.isdecimal c = true -> negb (PyStr.isspace c) = true.
Proof. destruct c as [[] [] [] [] [] [] [] []]; (reflexivity || discriminate). Qed.

Lemma decimal_value_acc d :
  forall acc,
    decimal_value (Z.pos acc) (NilEmpty.string_of_uint d)
    = Z.pos (Pos.of_uint_acc d acc).
Proof.
  induction d; intros acc; cbn [NilEmpty.string_of_uint decimal_value Pos.of_uint_acc];
    [reflexivity | rewrite <- IHd; f_equal; vm_compute (Z.of_N _); lia ..].
Qed.

Lemma decimal_value_uint d :
  decimal_value 0 (NilEmpty.string_of_uint d) = Z.of_N (Pos.of_uint d).
Proof.
  induction d; cbn [NilEmpty.string_of_uint decimal_value Pos.of_uint];
    [reflexivity | exact IHd | apply decimal_value_acc ..].
Qed.

Lemma pos_str p :
  NilZero.string_of_uint (Pos.to_uint p) = NilEmpty.string_of_uint (Pos.to_uint p)
  /\ NilEmpty.string_of_uint (Pos.to_uint p) <> EmptyString.
Proof.
  pose proof (DecimalPos.Unsigned.to_uint_nonnil p) as Hn.
  destruct (Pos.to_uint p); [congruence | split; [reflexivity | discriminate] ..].
Qed.

(** The decimal text of a non-negative integer is one token, a digit
    string, and [evaluate_infix] returns that integer for it, whatever the
    dictionary: [int(str(n)) = n]. *)
Theorem literal_evaluates_to_itself :
  forall (z : Z) (constants : gmap string number),
    (0 <= z)%Z ->
    evaluate_infix (int_str z) constants = (Return (NInt z), constants).
Proof.
  intros z constants Hz.
  destruct z as [| p | p]; [reflexivity | | lia].
  unfold int_str. simpl Z.to_int. cbn [NilZero.string_of_int].
  destruct (pos_str p) as [-> Hne].
  pose proof (uint_str_decimal (Pos.to_uint p)) as Hdec.
  unfold evaluate_infix.
  rewrite split_token;
    [| exact Hne | exact (all_chars_impl _ _ _ isdecimal_no_space Hdec)].
  rewrite eval_tokens_cons.
  assert (Hd : PyStr.isdigit (NilEmpty.string_of_uint (Pos.to_uint p)) = true).
  { unfold PyStr.isdigit.
    rewrite (all_chars_impl _ _ _ isdecimal_isdigit Hdec).
    destruct (NilEmpty.string_of_uint (Pos.to_uint p)); [congruence | reflexivity]. }
  rewrite Hd. unfold py_int. rewrite Hdec.
  rewrite decimal_value_uint, DecimalPos.Unsigned.of_to. reflexivity.
Qed.

Lemma literal_evaluates_to_itself_witness :
  evaluate_infix (int_str 2024) ∅ = (Return (NInt 2024), ∅).
Proof. apply (literal_evaluates_to_itself 2024 ∅). lia. Defined.

(** The text of a negative integer starts with a minus sign; it is no
    digit string and no operator, so, unless the dictionary binds it, it
    is an unknown token: the expressions have no negative literals. *)
Theorem negative_literal_is_unknown :
  forall (z : Z) (constants : gmap string number),
    (z < 0)%Z ->
    constants !! int_str z = None ->
    evaluate_infix (int_str z) constants
    = (Raise (UnknownToken (int_str z)), constants).
Proof.
  intros z constants Hz Hkey.
  destruct z as [| p | p]; [lia | lia |].
  unfold int_str in *. simpl Z.to_int in *. cbn [NilZero.string_of_int] in *.
  destruct (pos_str p) as [Heq Hne]. rewrite Heq in *.
  pose proof (uint_str_decimal (Pos.to_uint p)) as Hdec.
  set (ds := NilEmpty.string_of_uint (Pos.to_uint p)) in *.
  unfold evaluate_infix.
  rewrite split_token; [| discriminate |].
  2:{ unfold no_space. cbn [PyStr.all_chars].
      rewrite (all_chars_impl _ _ _ isdecimal_no_space Hdec). reflexivity. }
  rewrite eval_tokens_cons.
  change (PyStr.isdigit (String "-" ds)) with false. cbv iota.
  unfold bind, dict_contains. rewrite Hkey.
  rewrite bool_decide_eq_false_2 by (intros [v Hv]; discriminate).
  destruct ds as [| c ds']; [congruence | reflexivity].
Qed.

Lemma negative_literal_is_unknown_witness :
  evaluate_infix (int_str (-5)) ∅ = (Raise (UnknownToken "-5"), ∅).
Proof.
  apply (negative_literal_is_unknown (-5) ∅); [lia | reflexivity].
Defined.

(** ** Names as tokens *)

(** [validate_name] returns for the names made of an underscore or an
    upper-case letter and then underscores, letters and digits, and for
    each of these followed by one newline; it raises the invalid-name
    error, with the name, for every other string, the empty one
    included.  The dictionary is not touched. *)
Theorem validate_name_outcome :
  forall (name : string) (constants : gmap string number),
    validate_name name constants =
    if name_ok name
       || match chop_newline name with
          | Some stem => name_ok stem
          | None => false
          end
    then (Return tt, constants)
    else (Raise (InvalidName name), constants).
Proof.
  intros name constants. unfold validate_name.
  rewrite accepted_names.
  destruct (name_ok name || _); reflexivity.
Qed.

Lemma name_start_facts c :
  is_name_start c = true ->
  PyStr.isdigit_char c = false
  /\ forall rest, assoc (String c rest) OPERATORS = None.
Proof.
  destruct c as [[] [] [] [] [] [] [] []]; intros H;
    (discriminate H || (split; [reflexivity | intros rest; reflexivity])).
Qed.

Lemma name_char_no_space c :
  is_name_char c = true -> negb (PyStr.isspace c) = true.
Proof. destruct c as [[] [] [] [] [] [] [] []]; (reflexivity || discriminate). Qed.

Lemma name_start_char c : is_name_start c = true -> is_name_char c = true.
Proof. destruct c as [[] [] [] [] [] [] [] []]; (reflexivity || discriminate). Qed.

Lemma name_ok_no_space name : name_ok name = true -> no_space name = true.
Proof.
  destruct name as [| c rest]; [discriminate |].
  intros [Hc Hrest]%andb_prop. unfold no_space. cbn [PyStr.all_chars].
  rewrite (name_char_no_space c (name_start_char c Hc)).
  exact (all_chars_impl _ _ _ name_char_no_space Hrest).
Qed.

Lemma names_are_no_literals_no_operators_aux name :
  name_ok name = true ->
  PyStr.split name = [name]
  /\ PyStr.isdigit name = false
  /\ assoc name OPERATORS = None.
Proof.
  intros Hok. split.
  - apply split_token; [| exact (name_ok_no_space name Hok)].
    destruct name; [discriminate | discriminate].
  - destruct name as [| c rest]; [discriminate |].
    apply andb_prop in Hok as [Hc _].
    destruct (name_start_facts c Hc) as [Hd Hop]. split; [| apply Hop].
    unfold PyStr.isdigit. cbn [PyStr.all_chars]. rewrite Hd. reflexivity.
Qed.


(** A name of the form the specification gives is one token, is no digit
    string and is none of the five operators: a binding that
    [process_data] makes under such a name can hide neither a literal nor
    an operator. *)
Theorem names_are_no_literals_no_operators :
  forall name : string,
    name_ok name = true ->
    PyStr.split name = [name]
    /\ PyStr.isdigit name = false
    /\ assoc name OPERATORS = None.
Proof. exact names_are_no_literals_no_operators_aux. Qed.

Lemma names_are_no_literals_no_operators_witness :
  PyStr.split "Key1" = ["Key1"]
  /\ PyStr.isdigit "Key1" = false
  /\ assoc "Key1" OPERATORS = None.
Proof. apply (names_are_no_literals_no_operators "Key1"). reflexivity. Defined.

(** The expression made of one bound name evaluates to the value bound:
    what an entry stores under its name, a later expression reads back. *)
Theorem bound_name_evaluates_to_its_value :
  forall (name : string) (v : number) (constants : gmap string number),
    name_ok name = true ->
    constants !! name = Some v ->
    evaluate_infix name constants = (Return v, constants).
Proof.
  intros name v constants Hok Hv.
  destruct (names_are_no_literals_no_operators_aux name Hok) as (Hsplit & Hd & _).
  unfold evaluate_infix. rewrite Hsplit, eval_tokens_cons, Hd.
  unfold bind, dict_contains. rewrite Hv.
  rewrite bool_decide_eq_true_2 by eauto.
  unfold dict_get. rewrite Hv. reflexivity.
Qed.

Lemma bound_name_evaluates_to_its_value_witness :
  evaluate_infix "Key1" (<["Key1" := NInt 10]> ∅)
  = (Return (NInt 10), <["Key1" := NInt 10]> ∅).
Proof.
  apply (bound_name_evaluates_to_its_value "Key1" (NInt 10)); reflexivity.
Defined.

(** ** The stack discipline of the evaluator *)

Lemma eval_tokens_frame_aux tokens :
  forall stack base c s c',
    eval_tokens tokens stack c = (Return s, c') ->
    eval_tokens tokens (stack ++ base) c = (Return (s ++ base), c').
Proof.
  induction tokens as [| token rest IH]; intros stack base c s c'.
  - intros [= <- <-]. reflexivity.
  - rewrite !eval_tokens_cons.
    destruct (PyStr.isdigit token); unfold bind.
    { destruct (py_int token c) as [[n | e] c1]; [| discriminate].
      apply (IH (n :: stack)). }
    destruct (dict_contains token c) as [[[|] | e] c1]; [| | discriminate].
    { destruct (dict_get token c1) as [[v | e] c2]; [| discriminate].
      apply (IH (v :: stack)). }
    destruct (assoc token OPERATORS) as [op |]; [| discriminate].
    destruct stack as [| b [| a stack]]; [discriminate | discriminate |].
    simpl.
    destruct (lift_arith (op a b) c1) as [[r | e] c2]; [| discriminate].
    apply (IH (r :: stack)).
Qed.

(** Values that lie on the stack below those the tokens work on are left
    alone: if the tokens evaluate, from some stack, without an exception,
    they evaluate from that stack with more values underneath to the same
    result with the same values underneath. *)
Theorem eval_tokens_frame :
  forall (tokens : list string) (stack base s : list number)
         (c c' : gmap string number),
    eval_tokens tokens stack c = (Return s, c') ->
    eval_tokens tokens (stack ++ base) c = (Return (s ++ base), c').
Proof. intros tokens stack base s c c'. apply eval_tokens_frame_aux. Qed.

Lemma eval_tokens_frame_witness :
  eval_tokens ["2"; "3"; "*"] ([] ++ [NInt 7]) ∅
  = (Return ([NInt 6] ++ [NInt 7]), ∅).
Proof. apply (eval_tokens_frame ["2"; "3"; "*"] [] [NInt 7] [NInt 6] ∅ ∅). reflexivity. Defined.

(** Postfix composition: when [t1] evaluates to the single value [a] and
    [t2] to the single value [b], the tokens of [t1], then those of [t2],
    then an operator evaluate to the operator applied to [a] and [b], in
    that order ([a - b], [a / b], [min] of [a] and [b]). *)
Theorem postfix_composition :
  forall (t1 t2 : list string) (token : string)
         (op : number -> number -> arith_error + number)
         (a b r : number) (c : gmap string number),
    fst (eval_tokens t1 [] c) = Return [a] ->
    fst (eval_tokens t2 [] c) = Return [b] ->
    PyStr.isdigit token = false ->
    c !! token = None ->
    assoc token OPERATORS = Some op ->
    op a b = inr r ->
    eval_tokens (t1 ++ t2 ++ [token]) [] c = (Return [r], c).
Proof.
  intros t1 t2 token op a b r c H1 H2 Hd Hkey Hop Hr.
  apply (returns_with _ _ _ (read_only_eval_tokens t1 [])) in H1.
  apply (returns_with _ _ _ (read_only_eval_tokens t2 [])) in H2.
  rewrite eval_tokens_app. unfold bind at 1. rewrite H1.
  rewrite eval_tokens_app. unfold bind at 1.
  pose proof (eval_tokens_frame_aux t2 [] [a] c [b] c H2) as Hf.
  change ([] ++ [a]) with [a] in Hf. change ([b] ++ [a]) with [b; a] in Hf.
  rewrite Hf.
  rewrite eval_tokens_cons, Hd.
  unfold bind, dict_contains. rewrite Hkey, Hop.
  rewrite bool_decide_eq_false_2 by (intros [v Hv]; discriminate).
  simpl. rewrite Hr. reflexivity.
Qed.

Lemma postfix_composition_witness :
  eval_tokens (["7"; "2"; "+"] ++ ["4"] ++ ["-"]) [] ∅ = (Return [NInt 5], ∅).
Proof.
  apply (postfix_composition ["7"; "2"; "+"] ["4"] "-" PyNum.sub
           (NInt 9) (NInt 4) (NInt 5) ∅); reflexivity.
Defined.

(** ** Integers stay integers *)

Lemma integral_operator token op a b :
  assoc token OPERATORS = Some op ->
  token <> "/" ->
  integral a = true ->
  integral b = true ->
  exists r, op a b = inr r /\ integral r = true.
Proof.
  unfold assoc, OPERATORS.
  destruct (String.eqb_spec token "+") as [-> | _];
    [intros [= <-] _ | destruct (String.eqb_spec token "-") as [-> | _];
      [intros [= <-] _ | destruct (String.eqb_spec token "*") as [-> | _];
        [intros [= <-] _ | destruct (String.eqb_spec token "/") as [-> | _];
          [congruence | destruct (String.eqb_spec token "min") as [-> | _];
            [intros [= <-] _ | discriminate]]]]];
    destruct a as [x | x | f]; try discriminate;
    destruct b as [y | y | g]; try discriminate; intros _ _;
    try (eexists; split; [reflexivity | reflexivity]);
    simpl; match goal with |- context [if ?t then _ else _] => destruct t end;
    eexists; split; reflexivity.
Qed.

Lemma eval_tokens_integral_aux tokens :
  forall stack c,
    (forall k v, c !! k = Some v -> integral v = true) ->
    "/" ∉ tokens ->
    Forall (fun x => integral x = true) stack ->
    match eval_tokens tokens stack c with
    | (Return s, _) => Forall (fun x => integral x = true) s
    | (Raise e, _) => forall a, e <> ArithError a
    end.
Proof.
  induction tokens as [| token rest IH]; intros stack c Hc Hdiv Hstack.
  - exact Hstack.
  - apply not_elem_of_cons in Hdiv as [Hne Hdiv].
    rewrite eval_tokens_cons.
    destruct (PyStr.isdigit token); unfold bind.
    { unfold py_int.
      destruct (PyStr.all_chars PyStr.isdecimal token); [| discriminate].
      apply (IH _ c Hc Hdiv). constructor; [reflexivity | exact Hstack]. }
    unfold dict_contains.
    destruct (bool_decide (is_Some (c !! token))).
    { unfold dict_get. destruct (c !! token) as [v |] eqn:Hv; [| discriminate].
      apply (IH _ c Hc Hdiv). constructor; [exact (Hc _ _ Hv) | exact Hstack]. }
    destruct (assoc token OPERATORS) as [op |] eqn:Hop; [| discriminate].
    destruct Hstack as [| b stack Hb Hstack]; [discriminate |].
    destruct Hstack as [| a stack Ha Hstack]; [discriminate |].
    simpl.
    destruct (integral_operator token op a b Hop ltac:(congruence) Ha Hb)
      as (r & -> & Hr).
    simpl. apply (IH _ c Hc Hdiv). constructor; [exact Hr | exact Hstack].
Qed.

(** Without the division, integers stay integers: when no value of the
    dictionary is a [float] and no token is "/", [evaluate_infix] never
    raises [ZeroDivisionError] or [OverflowError], and what it returns is
    no [float]; the integer operations are exact. *)
Theorem integers_stay_integers :
  forall (expression : string) (constants : gmap string number),
    (forall k v, constants !! k = Some v -> integral v = true) ->
    "/" ∉ PyStr.split expression ->
    match fst (evaluate_infix expression constants) with
    | Return r => integral r = true
    | Raise e => forall a, e <> ArithError a
    end.
Proof.
  intros expression constants Hc Hdiv. unfold evaluate_infix, bind.
  pose proof (eval_tokens_integral_aux (PyStr.split expression) [] constants
                Hc Hdiv ltac:(constructor)) as H.
  destruct (eval_tokens (PyStr.split expression) [] constants) as [[s | e] c'].
  - destruct H as [| x s Hx _]; [discriminate | exact Hx].
  - exact H.
Qed.

Lemma integers_stay_integers_witness :
  integral (NInt 15) = true.
Proof.
  exact (integers_stay_integers "a b +" test_constants
           ltac:(intros k v H; unfold test_constants in H;
                 apply lookup_insert_Some in H as [[_ <-] | [_ H]];
                 [reflexivity |];
                 apply lookup_insert_Some in H as [[_ <-] | [_ H]];
                 [reflexivity | rewrite lookup_empty in H; discriminate])
           ltac:(vm_compute; intros H; repeat (apply elem_of_cons in H as [H | H]; [discriminate |]); inversion H)).
Defined.

(** ** Division by zero *)

Lemma truediv_by_zero x : PyNum.truediv x (NInt 0) = inl ZeroDivisionError.
Proof. destruct x as [z | b | f]; reflexivity. Qed.

(** An expression entry that divides by the literal 0 ends the run with
    [ZeroDivisionError], whatever the dividend, an [int], a [bool] or a
    [float]; this is no [ValueError], so the error leaves [process_data]
    without the name of the entry, and nothing is bound. *)
Theorem division_by_zero_is_not_wrapped :
  forall (key s : string) (constants : gmap string number)
         (pre post : list string) (x : number) (stack : list number),
    is_expression s = true ->
    PyStr.split (PyStr.strip (PyStr.slice_1_m1 s)) = pre ++ "0" :: "/" :: post ->
    constants !! "/" = None ->
    fst (eval_tokens pre [] constants) = Return (x :: stack) ->
    render_entry key (VStr s) constants
    = (Raise (ArithError ZeroDivisionError), constants).
Proof.
  intros key s constants pre post x stack Hs Hsplit Hkey Hpre.
  apply (returns_with _ _ _ (read_only_eval_tokens pre [])) in Hpre.
  rewrite render_entry_string, Hs.
  unfold evaluate_infix. rewrite Hsplit.
  unfold bind at 1. rewrite eval_tokens_app. unfold bind at 1. rewrite Hpre.
  rewrite eval_tokens_cons.
  change (PyStr.isdigit "0") with true. cbv iota.
  unfold py_int. change (PyStr.all_chars PyStr.isdecimal "0") with true. cbv iota.
  unfold bind at 1. unfold ret at 1.
  rewrite eval_tokens_cons.
  change (PyStr.isdigit "/") with false. cbv iota.
  unfold bind at 1. unfold dict_contains at 1. rewrite Hkey.
  rewrite bool_decide_eq_false_2 by (intros [v Hv]; discriminate).
  change (assoc "/" OPERATORS) with (Some PyNum.truediv).
  change (decimal_value 0 "0") with 0%Z.
  unfold bind, pop, ret. cbn -[PyNum.truediv eval_tokens].
  rewrite truediv_by_zero. reflexivity.
Qed.

Lemma division_by_zero_is_not_wrapped_witness :
  render_entry "K" (VStr "|7 0 /|") ∅ = (Raise (ArithError ZeroDivisionError), ∅).
Proof.
  apply (division_by_zero_is_not_wrapped "K" "|7 0 /|" ∅ ["7"] [] (NInt 7) []);
    reflexivity.
Defined.

(** ** The lines of a run *)

Lemma process_entry_lines comment_dict acc key value c o c' :
  process_entry comment_dict acc (key, value) c = (Return o, c') ->
  exists line, o = acc ++ [annotate comment_dict (length acc) line].
Proof.
  unfold process_entry, bind.
  destruct (validate_name key c) as [[[] | e] c1]; [| discriminate].
  destruct (render_entry key value c1) as [[line | e] c2]; [| discriminate].
  intros [= <- _]. exists line. apply attach_comment_snoc.
Qed.

Lemma process_loop_length comment_dict data :
  forall acc c out c',
    process_loop comment_dict data acc c = (Return out, c') ->
    length out = (length acc + length data)%nat.
Proof.
  induction data as [| [key value] rest IH]; intros acc c out c'.
  - intros [= <- _]. simpl. lia.
  - rewrite process_loop_cons.
    destruct (process_entry comment_dict acc (key, value) c)
      as [[o | e] c1] eqn:Hstep; [| discriminate].
    intros Hrest. apply IH in Hrest. rewrite Hrest.
    apply process_entry_lines in Hstep as [line ->].
    rewrite length_app. simpl. lia.
Qed.

(** A run that succeeds gives one line per entry, comments or not. *)
Theorem one_line_per_entry :
  forall (data : list (string * value)) (comments : list (nat * string))
         (c : gmap string number) (out : list string)
         (c' : gmap string number),
    process_data data comments c = (Return out, c') ->
    length out = length data.
Proof.
  intros data comments c out c' H.
  apply process_loop_length in H. exact H.
Qed.

Lemma one_line_per_entry_witness :
  length ["10 -> Key1"; "20 -> Key2"; "(list 1 2 3) -> Key3"; "30 -> Key1 Key2 +"]
  = length test_data.
Proof.
  apply (one_line_per_entry test_data [] ∅ _ final_constants).
  vm_compute. reflexivity.
Defined.

Lemma process_entry_plain comment_dict acc entry c :
  process_entry comment_dict (imap (annotate comment_dict) acc) entry c
  = match process_entry ∅ acc entry c with
    | (Return o, c') => (Return (imap (annotate comment_dict) o), c')
    | (Raise e, c') => (Raise e, c')
    end.
Proof.
  destruct entry as [key value]. unfold process_entry, bind.
  destruct (validate_name key c) as [[[] | e] c1]; [| reflexivity].
  destruct (render_entry key value c1) as [[line | e] c2]; [| reflexivity].
  unfold ret. rewrite !attach_comment_snoc, lookup_empty.
  rewrite imap_app, length_imap. simpl. rewrite Nat.add_0_r. reflexivity.
Qed.

Lemma process_loop_plain comment_dict data :
  forall acc c,
    process_loop comment_dict data (imap (annotate comment_dict) acc) c
    = match process_loop ∅ data acc c with
      | (Return o, c') => (Return (imap (annotate comment_dict) o), c')
      | (Raise e, c') => (Raise e, c')
      end.
Proof.
  induction data as [| entry rest IH]; intros acc c; [reflexivity |].
  rewrite !process_loop_cons, process_entry_plain.
  destruct (process_entry ∅ acc entry c) as [[o | e] c1]; [apply IH | reflexivity].
Qed.

(** Comments only decorate.  With comments, [process_data] raises the same
    exception or returns the same lines as without, and leaves the same
    dictionary; a returned line whose index, counted from 0 over the
    output, is the line number of a comment has that comment appended, and
    the other lines are the same.  A comment whose line number is no index
    of an output line is dropped. *)
Theorem comments_only_decorate :
  forall (data : list (string * value)) (comments : list (nat * string))
         (c : gmap string number),
    process_data data comments c =
    match process_data data [] c with
    | (Return out, c') =>
        (Return (imap (annotate (comment_dict_of comments)) out), c')
    | (Raise e, c') => (Raise e, c')
    end.
Proof.
  intros data comments c. unfold process_data.
  exact (process_loop_plain (comment_dict_of comments) data [] c).
Qed.

(** ** A run that fails *)

Lemma process_entry_raise_state comment_dict acc entry c e c' :
  process_entry comment_dict acc entry c = (Raise e, c') -> c' = c.
Proof.
  destruct entry as [key value]. unfold process_entry, validate_name.
  destruct (negb (Re.re_match NAME_REGEX key)); [intros [= _ <-]; reflexivity |].
  unfold bind at 1. unfold ret at 1. unfold bind.
  destruct value as [x | s | l | d | t r];
    [simpl; discriminate | | simpl; discriminate | simpl; discriminate
     | simpl; intros [= _ <-]; reflexivity].
  rewrite render_entry_string.
  destruct (is_expression s); [| intros [= _ <-]; reflexivity].
  destruct (evaluate_infix _ c) as [[r | x] c1];
    [simpl; discriminate | intros [= _ <-]; reflexivity].
Qed.

(** The first entry that raises ends the run with its exception: the
    entries after it are not looked at, and the dictionary, which is the
    caller's, keeps the bindings of the entries before it and gets none
    from the failing entry. *)
Theorem failed_entry_stops_the_run :
  forall (pre rest : list (string * value)) (bad : string * value)
         (comments : list (nat * string)) (c0 c1 : gmap string number)
         (o1 : list string) (e : exn),
    process_data pre comments c0 = (Return o1, c1) ->
    fst (process_entry (comment_dict_of comments) o1 bad c1) = Raise e ->
    process_data (pre ++ bad :: rest) comments c0 = (Raise e, c1).
Proof.
  intros pre rest bad comments c0 c1 o1 e Hpre Hbad.
  unfold process_data in *. rewrite process_loop_app, Hpre, process_loop_cons.
  destruct (process_entry (comment_dict_of comments) o1 bad c1)
    as [o c2] eqn:Hstep.
  simpl in Hbad. subst o.
  rewrite (process_entry_raise_state _ _ _ _ _ _ Hstep). reflexivity.
Qed.

Lemma failed_entry_stops_the_run_witness :
  process_data ([("Key1", VNum (NInt 10))]
                ++ ("Key2", VStr "|Key1 Key9 +|") :: [("1Invalid", VNum (NInt 3))])
               [] ∅
  = (Raise (ExpressionError "Key2" (UnknownToken "Key9")),
     <["Key1" := NInt 10]> ∅).
Proof.
  apply (failed_entry_stops_the_run [("Key1", VNum (NInt 10))]
           [("1Invalid", VNum (NInt 3))] ("Key2", VStr "|Key1 Key9 +|")
           [] ∅ (<["Key1" := NInt 10]> ∅) ["10 -> Key1"]);
    vm_compute; reflexivity.
Defined.

(** ** An expression that names its own entry *)

Lemma rev_app_append s1 :
  forall s2 acc,
    String.rev_app (s1 +:+ s2) acc = String.rev_app s2 (String.rev_app s1 acc).
Proof. induction s1 as [| c s1 IH]; intros s2 acc; simpl; auto. Qed.

Lemma length_append s1 s2 :
  String.length (s1 +:+ s2) = (String.length s1 + String.length s2)%nat.
Proof. induction s1 as [| c s1 IH]; simpl; auto. Qed.

Lemma substring_append s1 s2 :
  substring 0 (String.length s1) (s1 +:+ s2) = s1.
Proof.
  induction s1 as [| c s1 IH]; simpl; [destruct s2; reflexivity |].
  rewrite IH. reflexivity.
Qed.

Lemma is_expression_bars s : is_expression ("|" +:+ s +:+ "|") = true.
Proof.
  unfold is_expression, PyStr.endswith, String.rev.
  change ("|" +:+ s +:+ "|") with (String "|" (s +:+ "|")).
  cbn [PyStr.startswith String.rev_app]. rewrite rev_app_append. reflexivity.
Qed.

Lemma slice_bars s : PyStr.slice_1_m1 ("|" +:+ s +:+ "|") = s.
Proof.
  unfold PyStr.slice_1_m1.
  change ("|" +:+ s +:+ "|") with (String "|" (s +:+ "|")).
  cbn [String.length substring]. rewrite length_append. simpl String.length.
  replace (S (String.length s + 1) - 2)%nat with (String.length s) by lia.
  apply substring_append.
Qed.

Lemma rstrip_no_space s : no_space s = true -> PyStr.rstrip s = s.
Proof.
  induction s as [| c s IH]; [reflexivity |].
  intros [Hc Hs]%andb_prop. apply negb_true_iff in Hc.
  cbn [PyStr.rstrip]. rewrite (IH Hs), Hc, andb_false_r. reflexivity.
Qed.

Lemma strip_no_space s : no_space s = true -> PyStr.strip s = s.
Proof.
  intros H. unfold PyStr.strip.
  assert (Hl : PyStr.lstrip s = s).
  { destruct s as [| c s]; [reflexivity |].
    apply andb_prop in H as [Hc _]. apply negb_true_iff in Hc.
    simpl. rewrite Hc. reflexivity. }
  rewrite Hl. apply rstrip_no_space. exact H.
Qed.

(** An entry cannot refer to itself: when the name of an expression entry
    is not bound yet, the expression made of that name raises the
    unknown-token error, wrapped with the name of the entry, and binds
    nothing. *)
Theorem own_name_is_unknown :
  forall (key : string) (constants : gmap string number),
    name_ok key = true ->
    constants !! key = None ->
    render_entry key (VStr ("|" +:+ key +:+ "|")) constants
    = (Raise (ExpressionError key (UnknownToken key)), constants).
Proof.
  intros key constants Hok Hkey.
  destruct (names_are_no_literals_no_operators_aux key Hok) as (Hsplit & Hd & Hop).
  rewrite render_entry_string, is_expression_bars, slice_bars.
  rewrite (strip_no_space key (name_ok_no_space key Hok)).
  unfold evaluate_infix. rewrite Hsplit.
  unfold bind at 1. rewrite eval_tokens_cons, Hd.
  unfold bind, dict_contains. rewrite Hkey, Hop.
  rewrite bool_decide_eq_false_2 by (intros [v Hv]; discriminate).
  reflexivity.
Qed.

Lemma own_name_is_unknown_witness :
  render_entry "Key4" (VStr ("|" +:+ "Key4" +:+ "|")) ∅
  = (Raise (ExpressionError "Key4" (UnknownToken "Key4")), ∅).
Proof. apply (own_name_is_unknown "Key4" ∅); reflexivity. Defined.

(** ** Comments with one line number *)

Lemma comment_dict_of_app cs1 cs2 :
  comment_dict_of (cs1 ++ cs2)
  = fold_left (fun d nc => <[fst nc := snd nc]> d) cs2 (comment_dict_of cs1).
Proof. unfold comment_dict_of. apply fold_left_app. Qed.

Lemma fold_insert_other (cs : list (nat * string)) :
  forall (d : gmap nat string) n,
    n ∉ fst <$> cs ->
    fold_left (fun d nc => <[fst nc := snd nc]> d) cs d !! n = d !! n.
Proof.
  induction cs as [| [m c] cs IH]; intros d n Hn; [reflexivity |].
  rewrite fmap_cons in Hn. apply not_elem_of_cons in Hn as [Hne Hn].
  simpl. rewrite (IH _ _ Hn). apply lookup_insert_ne. auto.
Qed.

(** Of the comments that carry one line number, the dictionary of
    comments keeps the last: it is the one [process_data] appends. *)
Theorem last_comment_wins :
  forall (before after : list (nat * string)) (n : nat) (c : string),
    n ∉ fst <$> after ->
    comment_dict_of (before ++ (n, c) :: after) !! n = Some c.
Proof.
  intros before after n c Hn.
  rewrite comment_dict_of_app. simpl.
  rewrite (fold_insert_other after _ n Hn). apply lookup_insert_eq.
Qed.

Lemma last_comment_wins_witness :
  comment_dict_of ([(0%nat, "first")] ++ (0%nat, "second") :: [(1%nat, "other")])
  !! 0%nat = Some "second".
Proof.
  apply (last_comment_wins [(0%nat, "first")] [(1%nat, "other")] 0%nat "second").
  intros H. apply list_elem_of_fmap in H as ([m c] & Hm & Hin).
  apply list_elem_of_singleton in Hin. simpl in Hm. congruence.
Defined.

(** ** More on the comment-extraction pass *)

Lemma scan_plain lines :
  Forall (fun l => opens l = false) lines ->
  forall n cl cm buf start,
    fold_left scan_line (enumerate_from n lines)
              (ScanState cl cm false buf start)
    = ScanState (cl ++ lines) cm false buf start.
Proof.
  induction 1 as [| line lines Ho _ IH]; intros n cl cm buf start;
    cbn [fold_left enumerate_from].
  - rewrite app_nil_r. reflexivity.
  - rewrite (scan_line_outside _ _ _ _ _ _ Ho), IH, <- app_assoc. reflexivity.
Qed.

(** A text of which no line holds the opening marker comes back line by
    line, the lines joined by newlines, with no comment, also when lines
    hold the closing marker. *)
Theorem text_without_opening_marker :
  forall data : string,
    Forall (fun l => opens l = false) (PyStr.splitlines data) ->
    remove_comments data
    = (PyStr.join (String "010" EmptyString) (PyStr.splitlines data), []).
Proof.
  intros data H. unfold remove_comments, scan_lines, scan_init.
  rewrite (scan_plain _ H). reflexivity.
Qed.

Lemma text_without_opening_marker_witness :
  remove_comments ("T = {a = {b = 1}}" +:+ String "010" "Key = 1")
  = (PyStr.join (String "010" EmptyString) ["T = {a = {b = 1}}"; "Key = 1"], []).
Proof.
  apply (text_without_opening_marker ("T = {a = {b = 1}}" +:+ String "010" "Key = 1")).
  repeat constructor.
Defined.

Lemma scan_open_tail rest :
  Forall (fun l => opens l = true \/ closes l = false) rest ->
  forall n cl cm buf start,
    exists buf' start',
      fold_left scan_line (enumerate_from n rest)
                (ScanState cl cm true buf start)
      = ScanState cl cm true buf' start'.
Proof.
  induction 1 as [| line rest Hl _ IH]; intros n cl cm buf start;
    cbn [fold_left enumerate_from]; [eauto |].
  destruct (opens line) eqn:Ho.
  - rewrite (scan_line_open _ _ _ _ _ _ _ Ho). apply IH.
  - destruct Hl as [Hl | Hc]; [discriminate |].
    rewrite (scan_line_inside _ _ _ _ _ _ Ho Hc). apply IH.
Qed.

(** A block that is never closed is lost without a trace: when, after
    well-formed blocks and plain lines, a line opens a block and no later
    line closes it, that line and all the lines after it are dropped, and
    no comment is recorded for them. *)
Theorem unterminated_block_is_dropped :
  forall (data : string) (pre kept : list string)
         (found : list (nat * string)) (first : string) (rest : list string),
    PyStr.splitlines data = pre ++ first :: rest ->
    layout false 0 pre kept found ->
    opens first = true ->
    Forall (fun l => opens l = true \/ closes l = false) rest ->
    remove_comments data
    = (PyStr.join (String "010" EmptyString) kept, found).
Proof.
  intros data pre kept found first rest Hsplit Hpre Ho Hrest.
  unfold remove_comments, scan_lines, scan_init. rewrite Hsplit.
  rewrite enumerate_from_app, fold_left_app.
  destruct (scan_layout _ _ _ _ _ Hpre eq_refl [] [] None) as [start' ->].
  cbn [fold_left enumerate_from].
  rewrite (scan_line_open _ _ _ _ _ _ _ Ho).
  destruct (scan_open_tail rest Hrest (S (0 + length pre)) ([] ++ kept)
              ([] ++ found) ([] ++ [first]) (Some (0 + length pre))%nat)
    as (buf' & start'' & ->).
  reflexivity.
Qed.

Lemma unterminated_block_is_dropped_witness :
  remove_comments
    (PyStr.join (String "010" EmptyString) ["Key1 = 10"; "{{! note"; "Key2 = 20"])
  = (PyStr.join (String "010" EmptyString) ["Key1 = 10"], []).
Proof.
  apply (unterminated_block_is_dropped _ ["Key1 = 10"] ["Key1 = 10"] []
           "{{! note" ["Key2 = 20"]).
  - reflexivity.
  - apply layout_plain; [reflexivity | reflexivity | apply layout_end].
  - reflexivity.
  - constructor; [right; reflexivity | constructor].
Defined.

Lemma scan_kept lines :
  forall n st,
    exists extra,
      cleaned_lines (fold_left scan_line (enumerate_from n lines) st)
      = cleaned_lines st ++ extra
      /\ extra `sublist_of` lines
      /\ Forall (fun l => opens l = false) extra.
Proof.
  induction lines as [| line lines IH]; intros n st;
    cbn [fold_left enumerate_from].
  - exists []. rewrite app_nil_r. repeat split; constructor.
  - destruct (IH (S n) (scan_line st (n, line))) as (extra & -> & Hsub & Hall).
    destruct st as [cl cm inside buf start].
    destruct (opens line) eqn:Ho.
    + rewrite (scan_line_open _ _ _ _ _ _ _ Ho). simpl.
      exists extra. repeat split; [apply sublist_cons; exact Hsub | exact Hall].
    + destruct inside.
      * destruct (closes line) eqn:Hc.
        -- rewrite (scan_line_close _ _ _ _ _ _ Ho Hc). simpl.
           exists extra. repeat split; [apply sublist_cons; exact Hsub | exact Hall].
        -- rewrite (scan_line_inside _ _ _ _ _ _ Ho Hc). simpl.
           exists extra. repeat split; [apply sublist_cons; exact Hsub | exact Hall].
      * rewrite (scan_line_outside _ _ _ _ _ _ Ho). simpl.
        exists (line :: extra). rewrite <- app_assoc.
        repeat split; [apply sublist_skip; exact Hsub | constructor; assumption].
Qed.

(** Whatever the text, the lines that [remove_comments] keeps are lines of
    the text, in their order, and none of them holds the opening marker:
    the pass adds and reorders nothing, and never lets an opening marker
    through to the TOML parser. *)
Theorem kept_lines_are_lines_without_marker :
  forall data : string,
    fst (remove_comments data)
    = PyStr.join (String "010" EmptyString)
        (cleaned_lines (scan_lines (PyStr.splitlines data)))
    /\ cleaned_lines (scan_lines (PyStr.splitlines data))
       `sublist_of` PyStr.splitlines data
    /\ Forall (fun l => opens l = false)
         (cleaned_lines (scan_lines (PyStr.splitlines data))).
Proof.
  intros data. split; [reflexivity |].
  destruct (scan_kept (PyStr.splitlines data) 0 scan_init)
    as (extra & Heq & Hsub & Hall).
  unfold scan_lines. rewrite Heq. simpl. auto.
Qed.

Lemma scan_indices (lines : list string) :
  forall rest pre st,
    lines = pre ++ rest ->
    (forall i t, (i, t) ∈ comments st ->
                 exists l, lines !! i = Some l /\ opens l = true) ->
    (inside_comment st = true ->
     exists s l, comment_start_line st = Some s
                 /\ lines !! s = Some l /\ opens l = true) ->
    forall i t,
      (i, t) ∈ comments (fold_left scan_line
                           (enumerate_from (length pre) rest) st) ->
      exists l, lines !! i = Some l /\ opens l = true.
Proof.
  induction rest as [| line rest IH]; intros pre st Hlines Hcm Hin;
    cbn [fold_left enumerate_from]; [exact Hcm |].
  assert (Hline : lines !! length pre = Some line).
  { rewrite Hlines. rewrite lookup_app_r by lia.
    replace (length pre - length pre)%nat with 0%nat by lia. reflexivity. }
  replace (S (length pre)) with (length (pre ++ [line]))
    by (rewrite length_app; simpl; lia).
  apply IH; [rewrite <- app_assoc; exact Hlines | |];
    destruct st as [cl cm inside buf start]; simpl in Hcm, Hin.
  - destruct (opens line) eqn:Ho.
    + rewrite (scan_line_open _ _ _ _ _ _ _ Ho). exact Hcm.
    + destruct inside.
      * destruct (closes line) eqn:Hc.
        -- rewrite (scan_line_close _ _ _ _ _ _ Ho Hc). simpl.
           intros i t [Hi | Hi]%elem_of_app; [exact (Hcm i t Hi) |].
           apply list_elem_of_singleton in Hi. injection Hi as -> _.
           destruct (Hin eq_refl) as (s & l & -> & Hl & Hol). simpl. eauto.
        -- rewrite (scan_line_inside _ _ _ _ _ _ Ho Hc). exact Hcm.
      * rewrite (scan_line_outside _ _ _ _ _ _ Ho). exact Hcm.
  - destruct (opens line) eqn:Ho.
    + rewrite (scan_line_open _ _ _ _ _ _ _ Ho). simpl. eauto.
    + destruct inside.
      * destruct (closes line) eqn:Hc.
        -- rewrite (scan_line_close _ _ _ _ _ _ Ho Hc). simpl. discriminate.
        -- rewrite (scan_line_inside _ _ _ _ _ _ Ho Hc). simpl. exact Hin.
      * rewrite (scan_line_outside _ _ _ _ _ _ Ho). simpl. discriminate.
Qed.

(** Whatever the text, the line number recorded with a comment is the
    number of a line of the text that holds the opening marker. *)
Theorem comment_numbers_are_opening_lines :
  forall (data : string) (i : nat) (text : string),
    (i, text) ∈ snd (remove_comments data) ->
    exists line,
      PyStr.splitlines data !! i = Some line /\ opens line = true.
Proof.
  intros data i text H.
  apply (scan_indices (PyStr.splitlines data) (PyStr.splitlines data) []
           scan_init eq_refl) with (t := text).
  - intros j t Hj. inversion Hj.
  - discriminate.
  - exact H.
Qed.

Lemma comment_numbers_are_opening_lines_witness :
  exists line,
    PyStr.splitlines test_document !! 1%nat = Some line /\ opens line = true.
Proof.
  apply (comment_numbers_are_opening_lines test_document 1
           "{{!  This is a comment  }}").
  apply list_elem_of_singleton. reflexivity.
Defined.

(** An opening marker inside an open block does not start a second block:
    the one comment has the text of all the lines from the first opening
    line to the closing line, and the number of the later opening line. *)
Theorem second_opening_moves_the_number :
  forall (data first second last : string) (body1 body2 : list string),
    PyStr.splitlines data = first :: body1 ++ second :: body2 ++ [last] ->
    opens first = true ->
    Forall (fun l => opens l = false /\ closes l = false) body1 ->
    opens second = true ->
    Forall (fun l => opens l = false /\ closes l = false) body2 ->
    opens last = false ->
    closes last = true ->
    remove_comments data
    = (EmptyString,
       [(S (length body1),
         block_text (first :: body1 ++ second :: body2 ++ [last]))]).
Proof.
  intros data first second last body1 body2 Hsplit Ho1 Hb1 Ho2 Hb2 Ho3 Hc3.
  unfold remove_comments, scan_lines, scan_init. rewrite Hsplit.
  cbn [fold_left enumerate_from].
  rewrite (scan_line_open _ _ _ _ _ _ _ Ho1).
  rewrite enumerate_from_app, fold_left_app, (scan_body body1 Hb1).
  cbn [fold_left enumerate_from].
  rewrite (scan_line_open _ _ _ _ _ _ _ Ho2).
  rewrite enumerate_from_app, fold_left_app, (scan_body body2 Hb2).
  cbn [fold_left enumerate_from].
  rewrite (scan_line_close _ _ _ _ _ _ Ho3 Hc3).
  cbn [cleaned_lines comments PyStr.join default fst snd].
  cbn [app id Nat.add]. rewrite <- !app_assoc. reflexivity.
Qed.

Lemma second_opening_moves_the_number_witness :
  remove_comments
    (PyStr.join (String "010" EmptyString) ["{{! a"; "b"; "{{! c"; "}}"])
  = (EmptyString, [(2%nat, block_text ["{{! a"; "b"; "{{! c"; "}}"])]).
Proof.
  apply (second_opening_moves_the_number _ "{{! a" "{{! c" "}}" ["b"] []);
    try reflexivity; repeat constructor.
Defined.

(** ** The two formatters *)

Lemma append_assoc (s1 s2 s3 : string) :
  (s1 +:+ s2) +:+ s3 = s1 +:+ (s2 +:+ s3).
Proof.
  induction s1 as [| c s1 IH]; [reflexivity |].
  change (String c ((s1 +:+ s2) +:+ s3) = String c (s1 +:+ (s2 +:+ s3))).
  f_equal. exact IH.
Qed.

Lemma join_cons sep x l :
  l <> [] -> PyStr.join sep (x :: l) = x +:+ sep +:+ PyStr.join sep l.
Proof. destruct l; [congruence | reflexivity]. Qed.

Lemma join_merge sep (before : list string) :
  forall x y after,
    PyStr.join sep (before ++ (x +:+ sep +:+ y) :: after)
    = PyStr.join sep (before ++ x :: y :: after).
Proof.
  induction before as [| a before IH]; intros x y after.
  - cbn [app]. rewrite (join_cons sep x (y :: after)) by discriminate.
    destruct after as [| b after]; [reflexivity |].
    rewrite !join_cons by discriminate.
    rewrite !append_assoc. reflexivity.
  - rewrite <- !app_comm_cons.
    rewrite !join_cons by (destruct before; discriminate).
    rewrite IH. reflexivity.
Qed.

(** [format_list] writes a string element as it is, without quotes: an
    array in which one string holds a space is written like the array
    with the two parts of that string as two elements. *)
Theorem format_list_does_not_quote :
  forall (before after : list value) (s t : string),
    format_list (before ++ VStr (s +:+ " " +:+ t) :: after)
    = format_list (before ++ VStr s :: VStr t :: after).
Proof.
  intros before after s t. unfold format_list.
  rewrite !map_app. cbn [List.map PyRepr.py_str].
  rewrite join_merge. reflexivity.
Qed.

(** [format_table] writes keys and string values as they are: a table in
    which one string value holds ", " and " = " is written like the table
    with one more entry. *)
Theorem format_table_does_not_quote :
  forall (before after : list (string * value)) (k v k' v' : string),
    format_table (before ++ (k, VStr (v +:+ ", " +:+ k' +:+ " = " +:+ v')) :: after)
    = format_table (before ++ (k, VStr v) :: (k', VStr v') :: after).
Proof.
  intros before after k v k' v'. unfold format_table.
  rewrite !map_app. cbn [List.map PyRepr.py_str fst snd].
  rewrite <- join_merge. rewrite !append_assoc. reflexivity.
Qed.

(** ** Names an expression does not mention *)

Lemma eval_tokens_other_name tokens k v :
  k ∉ tokens ->
  forall stack c,
    fst (eval_tokens tokens stack (<[k := v]> c))
    = fst (eval_tokens tokens stack c).
Proof.
  induction tokens as [| token rest IH]; intros Hk stack c; [reflexivity |].
  apply not_elem_of_cons in Hk as [Hne Hk]. specialize (IH Hk).
  rewrite !eval_tokens_cons.
  destruct (PyStr.isdigit token); unfold bind.
  { unfold py_int. destruct (PyStr.all_chars PyStr.isdecimal token);
      [apply IH | reflexivity]. }
  unfold dict_contains, dict_get.
  rewrite (lookup_insert_ne c k token v) by exact Hne.
  destruct (c !! token) as [x |] eqn:Hl.
  { rewrite bool_decide_eq_true_2 by eauto.
    rewrite (lookup_insert_ne c k token v) by exact Hne.
    rewrite Hl. apply IH. }
  rewrite bool_decide_eq_false_2 by (intros [x Hx]; discriminate).
  destruct (assoc token OPERATORS) as [op |]; [| reflexivity].
  destruct stack as [| b [| a stack]]; [reflexivity | reflexivity |].
  simpl. destruct (op a b) as [e | r]; [reflexivity | apply IH].
Qed.

(** The outcome of an expression depends only on the names it mentions:
    binding a name that is none of its tokens changes neither the value
    returned nor the exception raised. *)
Theorem unmentioned_name_is_irrelevant :
  forall (expression key : string) (v : number)
         (constants : gmap string number),
    key ∉ PyStr.split expression ->
    fst (evaluate_infix expression (<[key := v]> constants))
    = fst (evaluate_infix expression constants).
Proof.
  intros expression key v constants Hk. unfold evaluate_infix, bind.
  pose proof (eval_tokens_other_name _ key v Hk [] constants) as H.
  destruct (eval_tokens (PyStr.split expression) [] (<[key := v]> constants))
    as [o1 c1].
  destruct (eval_tokens (PyStr.split expression) [] constants) as [o2 c2].
  simpl in H. subst o2. destruct o1 as [[| x s] | e]; reflexivity.
Qed.

Lemma unmentioned_name_is_irrelevant_witness :
  fst (evaluate_infix "a b +" (<["Key9" := NInt 1]> test_constants))
  = fst (evaluate_infix "a b +" test_constants).
Proof.
  apply (unmentioned_name_is_irrelevant "a b +" "Key9" (NInt 1) test_constants).
  vm_compute. intros H.
  repeat (apply elem_of_cons in H as [H | H]; [discriminate |]).
  inversion H.
Defined.
